(** * The renderer-side environment-lifecycle bridge of
      [atom/renderer/atom_renderer_client.cc].

    The file embeds [AtomRenderFrameObserver] and [AtomRendererClient] as
    functions in a small state/log/fault monad over the renderer process,
    and proves the properties of the bridge: world selection, the guard on
    frames, the one-shot bootstrap latch, the default ("uv") environment,
    the isolated-world bootstrap, the release path and the navigation
    predicate. *)

From Stdlib Require Import ZArith.
From stdpp Require Import base option list strings gmap fin_maps.

Local Open Scope Z_scope.
Local Open Scope string_scope.
Local Open Scope list_scope.

(** ** Handles and values *)

(** A [v8::Context] handle; two handles denote one context iff they are
    equal. *)
Definition Context := nat.

(** A live [node::Environment]; a [node::Environment*] is an
    [option Environment], with [None] for [nullptr]. *)
Definition Environment := nat.

(** The values the bridge stores into a JS object. *)
Inductive Value :=
| V8String (s : string)
| V8Boolean (b : bool)
| V8Function (name : string)
| V8Null.

(** A plain JS object: its own properties by name. *)
Abbreviation Object := (gmap string Value).

(** [GURL], as far as the bridge looks at it. *)
Record GURL := { scheme : string; spec : string }.

(** [GURL::SchemeIs]: the (canonical) scheme is compared as a whole. *)
Definition SchemeIs (url : GURL) (lower_ascii_scheme : string) : bool :=
  String.eqb (scheme url) lower_ascii_scheme.

(** [content::RenderFrame] with the document of its [blink::WebLocalFrame]:
    what the bridge reads from a frame when a callback arrives. *)
Record RenderFrame := {
  IsMainFrame : bool;
  document_url : GURL;
  document_getSecurityOrigin : string
}.

(** [base::CommandLine], through the two accessors the bridge calls. *)
Record CommandLine := {
  HasSwitch : string -> bool;
  GetSwitchValueASCII : string -> string
}.

(** Modelled from the spec: the names of the process-wide flags declared in
    [atom/common/options_switches.h] (section 6, "Consumed configuration"). *)
Module switches.
Definition kGuestInstanceID : string := "guest-instance-id".
Definition kOpenerID : string := "opener-id".
Definition kHiddenPage : string := "hidden-page".
Definition kContextIsolation : string := "context-isolation".
Definition kNodeIntegrationInWorker : string := "node-integration-in-worker".
End switches.

(** What the build supplies and the source only names: the option keys of
    [atom/common/options_switches.h], the generated bundle of
    [atom_natives.h], and the properties [api::Initialize] installs on the
    object it is handed. *)
Class Natives := {
  options_kGuestInstanceID : string;
  options_kOpenerID : string;
  isolated_bundle_data : string;
  api_Initialize : Object -> Object
}.

(** [enum World] and [enum ExtensionGroup]. *)
Module World.
Definition MAIN_WORLD : Z := 0.
Definition ISOLATED_WORLD : Z := 999.
End World.

Module ExtensionGroup.
Definition MAIN_GROUP : Z := 1.
End ExtensionGroup.

(** ** The renderer process *)

(** The calls the bridge makes into the host engine, the embedded runtime
    and the binding registries, in the order it makes them. *)
Inductive Call :=
| NodeBindings_Initialize
| NodeBindings_PrepareMessageLoop
| NodeBindings_CreateEnvironment (context : Context) (env : Environment)
| AtomBindings_BindTo (env : Environment)
| AddRenderBindings (env : Environment)
| NodeBindings_LoadEnvironment (env : option Environment)
| NodeBindings_RunMessageLoop
| EmitEvent (env : Environment) (name : string)
| FreeEnvironment (env : option Environment)
| AtomBindings_EnvironmentDestroyed (env : option Environment)
| setIsolatedWorldHumanReadableName (world_id : Z) (name : string)
| setIsolatedWorldSecurityOrigin (world_id : Z) (origin : string)
| executeScriptInIsolatedWorld
    (world_id : Z) (source : string) (num_sources : Z) (extension_group : Z)
| Script_Compile (source : string)
| Script_Run (context : Context)
| api_Initialize_on (context : Context)
| Function_Call (context : Context) (args : list Object)
| executeScript (source : string)
| Worker_ContextCreated (context : Context)
| Worker_ContextWillDestroy (context : Context).

(** The state the callbacks read and write: the process command line, the
    members of [AtomRendererClient], the [uv_env_] member of its
    [NodeBindings], and the runtime's binding of environments to contexts. *)
Record RendererProcess := {
  command_line : CommandLine;
  isolated_world_ : bool;
  node_integration_initialized_ : bool;
  uv_env_ : option Environment;
  environments : gmap Context Environment;
  next_environment : Environment
}.

(** A callback either returns, leaving a process state and the calls it
    made, or faults on a null environment pointer. *)
Inductive outcome (A : Type) :=
| Returned (a : A) (p : RendererProcess) (calls : list Call)
| Faulted (calls : list Call).
Arguments Returned {A} a p calls.
Arguments Faulted {A} calls.

Definition M (A : Type) : Type := RendererProcess -> outcome A.

Definition ret {A} (a : A) : M A := fun p => Returned a p [].

Definition bind {A B} (m : M A) (f : A -> M B) : M B :=
  fun p =>
    match m p with
    | Returned a p1 t1 =>
        match f a p1 with
        | Returned b p2 t2 => Returned b p2 (t1 ++ t2)
        | Faulted t2 => Faulted (t1 ++ t2)
        end
    | Faulted t1 => Faulted t1
    end.

Notation "'do' x <- m ; k" := (bind m (fun x => k))
  (at level 10, x name, m at level 100, k at level 200,
   format "'[v' 'do'  x  <-  m ; '/' k ']'").
Notation "'do_' m ; k" := (bind m (fun _ => k))
  (at level 10, m at level 100, k at level 200,
   format "'[v' 'do_'  m ; '/' k ']'").

Definition get : M RendererProcess := fun p => Returned p p [].
Definition put (p : RendererProcess) : M unit := fun _ => Returned tt p [].
Definition call (c : Call) : M unit := fun p => Returned tt p [c].
Definition fault {A} : M A := fun _ => Faulted [].

(** [env->...]: following an environment pointer faults when it is null. *)
Definition deref (env : option Environment) : M Environment :=
  match env with
  | Some e => ret e
  | None => fault
  end.

Definition when (b : bool) (m : M unit) : M unit :=
  if b then m else ret tt.

(** ** The collaborators the bridge calls *)

(** Modelled from the spec: [NodeBindings::uv_env] and
    [NodeBindings::set_uv_env], of [atom/common/node_bindings.h], the
    accessors of the "single optional reference inside NodeBindingsFacility"
    that tracks the default environment (section 3). *)
Definition uv_env : M (option Environment) :=
  do p <- get; ret (uv_env_ p).

Definition set_uv_env (env : option Environment) : M unit :=
  do p <- get;
  put {| command_line := command_line p;
         isolated_world_ := isolated_world_ p;
         node_integration_initialized_ := node_integration_initialized_ p;
         uv_env_ := env;
         environments := environments p;
         next_environment := next_environment p |}.

(** Modelled from the spec: [NodeBindings::CreateEnvironment], of
    [atom/common/node_bindings.cc]. It makes a new environment, binds it to
    the context and returns a pointer to it, never null ("create
    Environment bound to context", section 4.3). *)
Definition CreateEnvironment (context : Context) : M (option Environment) :=
  do p <- get;
  let env := next_environment p in
  do_ put {| command_line := command_line p;
             isolated_world_ := isolated_world_ p;
             node_integration_initialized_ := node_integration_initialized_ p;
             uv_env_ := uv_env_ p;
             environments := <[context := env]> (environments p);
             next_environment := S env |};
  do_ call (NodeBindings_CreateEnvironment context env);
  ret (Some env).

(** Modelled from the spec: [node::Environment::GetCurrent], the environment
    bound to exactly this context handle, or null (section 3). *)
Definition GetCurrent (context : Context) : M (option Environment) :=
  do p <- get; ret (environments p !! context).

(** Modelled from the spec: [node::FreeEnvironment]. A live environment is
    destroyed and no context is bound to it any longer; the call is logged
    with the pointer it receives, and what the runtime does with a null
    pointer is not part of the bridge. *)
Definition node_FreeEnvironment (env : option Environment) : M unit :=
  do p <- get;
  do_ put {| command_line := command_line p;
             isolated_world_ := isolated_world_ p;
             node_integration_initialized_ := node_integration_initialized_ p;
             uv_env_ := uv_env_ p;
             environments :=
               match env with
               | Some e => filter (fun kv => kv.2 <> e) (environments p)
               | None => environments p
               end;
             next_environment := next_environment p |};
  call (FreeEnvironment env).

(** [mate::EmitEvent(env->isolate(), env->process_object(), name)]. *)
Definition mate_EmitEvent (env : option Environment) (name : string) : M unit :=
  do e <- deref env; call (EmitEvent e name).

(** [mate::Dictionary::Set]. *)
Definition Dictionary_Set (dict : Object) (key : string) (val : Value) : Object :=
  <[key := val]> dict.

(** ** [AtomRendererClient] *)

(** [IsDevToolsExtension], of the anonymous namespace. *)
Definition IsDevToolsExtension (render_frame : RenderFrame) : bool :=
  SchemeIs (document_url render_frame) "chrome-extension".

Module AtomRendererClient.

(** The constructor: nothing is initialised, no environment is the
    default, and isolated mode is read once from the command line. The
    [NodeBindings] it creates starts with a null [uv_env_]. *)
Definition new (cl : CommandLine) : RendererProcess :=
  {| command_line := cl;
     isolated_world_ := HasSwitch cl switches.kContextIsolation;
     node_integration_initialized_ := false;
     uv_env_ := None;
     environments := ∅;
     next_environment := 0%nat |}.

Definition isolated_world : M bool :=
  do p <- get; ret (isolated_world_ p).

Definition node_integration_initialized : M bool :=
  do p <- get; ret (node_integration_initialized_ p).

Definition set_node_integration_initialized (b : bool) : M unit :=
  do p <- get;
  put {| command_line := command_line p;
         isolated_world_ := isolated_world_ p;
         node_integration_initialized_ := b;
         uv_env_ := uv_env_ p;
         environments := environments p;
         next_environment := next_environment p |}.

Definition DidClearWindowObject (render_frame : RenderFrame) : M unit :=
  call (executeScript "void 0").

Definition RunScriptsAtDocumentStart (render_frame : RenderFrame) : M unit :=
  do env <- uv_env;
  when (bool_decide (env <> None)) (mate_EmitEvent env "document-start").

Definition RunScriptsAtDocumentEnd (render_frame : RenderFrame) : M unit :=
  do env <- uv_env;
  when (bool_decide (env <> None)) (mate_EmitEvent env "document-end").

Definition DidCreateScriptContext
    (context : Context) (render_frame : RenderFrame) : M unit :=
  if negb (IsMainFrame render_frame) && negb (IsDevToolsExtension render_frame)
  then ret tt
  else
    do initialized <- node_integration_initialized;
    do_ when (negb initialized)
          (do_ set_node_integration_initialized true;
           do_ call NodeBindings_Initialize;
           call NodeBindings_PrepareMessageLoop);
    do env <- CreateEnvironment context;
    do e <- deref env;
    do_ call (AtomBindings_BindTo e);
    do e <- deref env;
    do_ call (AddRenderBindings e);
    do_ call (NodeBindings_LoadEnvironment env);
    do current <- uv_env;
    when (bool_decide (current = None))
      (do_ set_uv_env env;
       call NodeBindings_RunMessageLoop).

Definition WillReleaseScriptContext
    (context : Context) (render_frame : RenderFrame) : M unit :=
  if negb (IsMainFrame render_frame) && negb (IsDevToolsExtension render_frame)
  then ret tt
  else
    do env <- GetCurrent context;
    do_ when (bool_decide (env <> None)) (mate_EmitEvent env "exit");
    do current <- uv_env;
    do_ when (bool_decide (env = current)) (set_uv_env None);
    do_ node_FreeEnvironment env;
    call (AtomBindings_EnvironmentDestroyed env).

(** The result is the returned [bool] paired with what is stored through
    [send_referrer]. *)
Definition ShouldFork
    (frame : RenderFrame) (url : GURL) (http_method : string)
    (is_initial_navigation is_server_redirect : bool) : bool * bool :=
  let send_referrer := true in
  (String.eqb http_method "GET", send_referrer).

Definition DidInitializeWorkerContextOnWorkerThread (context : Context) : M unit :=
  do p <- get;
  when (HasSwitch (command_line p) switches.kNodeIntegrationInWorker)
    (call (Worker_ContextCreated context)).

Definition WillDestroyWorkerContextOnWorkerThread (context : Context) : M unit :=
  do p <- get;
  when (HasSwitch (command_line p) switches.kNodeIntegrationInWorker)
    (call (Worker_ContextWillDestroy context)).

End AtomRendererClient.

(** ** [AtomRenderFrameObserver] *)

Module AtomRenderFrameObserver.
Section WithNatives.
Context `{Natives}.

Definition newline : string := String (Ascii.ascii_of_nat 10) EmptyString.

Definition CreateIsolatedWorldContext (render_frame_ : RenderFrame) : M unit :=
  do_ call (setIsolatedWorldHumanReadableName
              World.ISOLATED_WORLD "Electron Isolated Context");
  do_ call (setIsolatedWorldSecurityOrigin
              World.ISOLATED_WORLD (document_getSecurityOrigin render_frame_));
  call (executeScriptInIsolatedWorld
          World.ISOLATED_WORLD "void 0" 1 ExtensionGroup.MAIN_GROUP).

(** The object handed to the bundle: what [api::Initialize] installs on a
    fresh object, then the command-line flags. *)
Definition binding_of (cl : CommandLine) : Object :=
  let binding := api_Initialize ∅ in
  let dict := binding in
  let dict :=
    if HasSwitch cl switches.kGuestInstanceID
    then Dictionary_Set dict options_kGuestInstanceID
           (V8String (GetSwitchValueASCII cl switches.kGuestInstanceID))
    else dict in
  let dict :=
    if HasSwitch cl switches.kOpenerID
    then Dictionary_Set dict options_kOpenerID
           (V8String (GetSwitchValueASCII cl switches.kOpenerID))
    else dict in
  Dictionary_Set dict "hiddenPage"
    (V8Boolean (HasSwitch cl switches.kHiddenPage)).

Definition SetupMainWorldOverrides (context : Context) : M unit :=
  let bundle := isolated_bundle_data in
  let wrapper :=
    "(function (binding, require) {" +:+ newline +:+ bundle
      +:+ newline +:+ "})" in
  do_ call (Script_Compile wrapper);
  do_ call (Script_Run context);
  do_ call (api_Initialize_on context);
  do p <- get;
  let binding := binding_of (command_line p) in
  call (Function_Call context [binding]).

Definition IsMainWorld (world_id : Z) : bool :=
  Z.eqb world_id World.MAIN_WORLD.

Definition IsIsolatedWorld (world_id : Z) : bool :=
  Z.eqb world_id World.ISOLATED_WORLD.

Definition ShouldNotifyClient
    (renderer_client_ : RendererProcess) (render_frame_ : RenderFrame)
    (world_id : Z) : bool :=
  if isolated_world_ renderer_client_ && IsMainFrame render_frame_
  then IsIsolatedWorld world_id
  else IsMainWorld world_id.

Definition DidClearWindowObject (render_frame_ : RenderFrame) : M unit :=
  AtomRendererClient.DidClearWindowObject render_frame_.

Definition DidCreateScriptContext
    (render_frame_ : RenderFrame)
    (context : Context) (extension_group : Z) (world_id : Z) : M unit :=
  do client <- get;
  do_ when (ShouldNotifyClient client render_frame_ world_id)
        (AtomRendererClient.DidCreateScriptContext context render_frame_);
  do client <- get;
  when (isolated_world_ client && IsMainWorld world_id
          && IsMainFrame render_frame_)
    (do_ CreateIsolatedWorldContext render_frame_;
     SetupMainWorldOverrides context).

Definition WillReleaseScriptContext
    (render_frame_ : RenderFrame) (context : Context) (world_id : Z) : M unit :=
  do client <- get;
  when (ShouldNotifyClient client render_frame_ world_id)
    (AtomRendererClient.WillReleaseScriptContext context render_frame_).

End WithNatives.
End AtomRenderFrameObserver.

(** ** The host engine's callbacks *)

(** The callbacks the host engine delivers, each with the frame it is
    delivered for as the frame is at that moment. A call the bridge makes
    into the host engine is logged; whatever the engine does in reaction
    reaches the bridge as a later callback of this list. *)
Inductive HostCallback :=
| OnDidClearWindowObject (frame : RenderFrame)
| OnDidCreateScriptContext
    (frame : RenderFrame) (context : Context) (extension_group world_id : Z)
| OnWillReleaseScriptContext
    (frame : RenderFrame) (context : Context) (world_id : Z)
| OnRunScriptsAtDocumentStart (frame : RenderFrame)
| OnRunScriptsAtDocumentEnd (frame : RenderFrame).

Section Dispatch.
Context `{Natives}.

Definition dispatch (cb : HostCallback) : M unit :=
  match cb with
  | OnDidClearWindowObject frame =>
      AtomRenderFrameObserver.DidClearWindowObject frame
  | OnDidCreateScriptContext frame context extension_group world_id =>
      AtomRenderFrameObserver.DidCreateScriptContext
        frame context extension_group world_id
  | OnWillReleaseScriptContext frame context world_id =>
      AtomRenderFrameObserver.WillReleaseScriptContext frame context world_id
  | OnRunScriptsAtDocumentStart frame =>
      AtomRendererClient.RunScriptsAtDocumentStart frame
  | OnRunScriptsAtDocumentEnd frame =>
      AtomRendererClient.RunScriptsAtDocumentEnd frame
  end.

(** The callbacks arrive serialised on the main sequence. *)
Fixpoint run (cbs : list HostCallback) : M unit :=
  match cbs with
  | [] => ret tt
  | cb :: rest => do_ dispatch cb; run rest
  end.

End Dispatch.

(** ** Observations on outcomes and logs *)

Definition calls_of {A} (o : outcome A) : list Call :=
  match o with
  | Returned _ _ calls => calls
  | Faulted calls => calls
  end.

(** The guard both [AtomRendererClient] context callbacks start with. *)
Definition frame_allowed (frame : RenderFrame) : bool :=
  IsMainFrame frame || IsDevToolsExtension frame.

(** A context creation that reaches [CreateEnvironment]: the observer
    forwards it and the client's guard lets the frame through. *)
Definition qualifying_creation (p : RendererProcess) (cb : HostCallback) : bool :=
  match cb with
  | OnDidCreateScriptContext frame _ _ world_id =>
      AtomRenderFrameObserver.ShouldNotifyClient p frame world_id
        && frame_allowed frame
  | _ => false
  end.

Definition is_Initialize (c : Call) : bool :=
  match c with NodeBindings_Initialize => true | _ => false end.

Definition is_PrepareMessageLoop (c : Call) : bool :=
  match c with NodeBindings_PrepareMessageLoop => true | _ => false end.

Definition is_RunMessageLoop (c : Call) : bool :=
  match c with NodeBindings_RunMessageLoop => true | _ => false end.

Definition is_CreateEnvironment (c : Call) : bool :=
  match c with NodeBindings_CreateEnvironment _ _ => true | _ => false end.

Definition is_EmitEvent (c : Call) : bool :=
  match c with EmitEvent _ _ => true | _ => false end.

(** The calls of the isolated-world bootstrap: the three on the isolated
    world and the four that run the bundle. *)
Definition is_bootstrap_call (c : Call) : bool :=
  match c with
  | setIsolatedWorldHumanReadableName _ _
  | setIsolatedWorldSecurityOrigin _ _
  | executeScriptInIsolatedWorld _ _ _ _
  | Script_Compile _
  | Script_Run _
  | api_Initialize_on _
  | Function_Call _ _ => true
  | _ => false
  end.

Definition count (f : Call -> bool) (calls : list Call) : nat :=
  length (filter (fun c => f c = true) calls).

(** An environment is the default one when [uv_env_] points to it. *)
Definition is_default (p : RendererProcess) (env : Environment) : Prop :=
  uv_env_ p = Some env.

(** ** Closed forms of the two context callbacks *)

(** The process after a creation the guard lets through. *)
Definition created (context : Context) (p : RendererProcess) : RendererProcess :=
  {| command_line := command_line p;
     isolated_world_ := isolated_world_ p;
     node_integration_initialized_ := true;
     uv_env_ := match uv_env_ p with
                | Some e => Some e
                | None => Some (next_environment p)
                end;
     environments := <[context := next_environment p]> (environments p);
     next_environment := S (next_environment p) |}.

Definition creation_calls (context : Context) (p : RendererProcess) : list Call :=
  (if node_integration_initialized_ p then []
   else [NodeBindings_Initialize; NodeBindings_PrepareMessageLoop])
  ++ [NodeBindings_CreateEnvironment context (next_environment p);
      AtomBindings_BindTo (next_environment p);
      AddRenderBindings (next_environment p);
      NodeBindings_LoadEnvironment (Some (next_environment p))]
  ++ match uv_env_ p with
     | Some _ => []
     | None => [NodeBindings_RunMessageLoop]
     end.

(** The process after a release the guard lets through. *)
Definition released (context : Context) (p : RendererProcess) : RendererProcess :=
  {| command_line := command_line p;
     isolated_world_ := isolated_world_ p;
     node_integration_initialized_ := node_integration_initialized_ p;
     uv_env_ := if bool_decide (environments p !! context = uv_env_ p)
                then None else uv_env_ p;
     environments :=
       match environments p !! context with
       | Some e => filter (fun kv => kv.2 <> e) (environments p)
       | None => environments p
       end;
     next_environment := next_environment p |}.

Definition release_calls (context : Context) (p : RendererProcess) : list Call :=
  match environments p !! context with
  | Some e => [EmitEvent e "exit"]
  | None => []
  end
  ++ [FreeEnvironment (environments p !! context);
      AtomBindings_EnvironmentDestroyed (environments p !! context)].

Section Bootstrap.
Context `{Natives}.

Definition bootstrap_calls
    (frame : RenderFrame) (context : Context) (p : RendererProcess) : list Call :=
  [ setIsolatedWorldHumanReadableName 999 "Electron Isolated Context";
    setIsolatedWorldSecurityOrigin 999 (document_getSecurityOrigin frame);
    executeScriptInIsolatedWorld 999 "void 0" 1 1;
    Script_Compile
      ("(function (binding, require) {" +:+ AtomRenderFrameObserver.newline
         +:+ isolated_bundle_data +:+ AtomRenderFrameObserver.newline +:+ "})");
    Script_Run context;
    api_Initialize_on context;
    Function_Call context
      [AtomRenderFrameObserver.binding_of (command_line p)] ].

(** When the isolated-world bootstrap runs, as the observer tests it. *)
Definition bootstrap_condition (p : RendererProcess) (cb : HostCallback) : bool :=
  match cb with
  | OnDidCreateScriptContext frame _ _ world_id =>
      isolated_world_ p && Z.eqb world_id World.MAIN_WORLD && IsMainFrame frame
  | _ => false
  end.

End Bootstrap.

(** What a callback other than a qualifying creation leaves alone. *)
Definition quiet (p p' : RendererProcess) (calls : list Call) : Prop :=
  command_line p' = command_line p
  /\ isolated_world_ p' = isolated_world_ p
  /\ node_integration_initialized_ p' = node_integration_initialized_ p
  /\ (uv_env_ p = None -> uv_env_ p' = None)
  /\ count is_Initialize calls = 0%nat
  /\ count is_PrepareMessageLoop calls = 0%nat
  /\ count is_CreateEnvironment calls = 0%nat
  /\ count is_RunMessageLoop calls = 0%nat.

(** ** Sample inputs *)

Definition sample_natives : Natives :=
  {| options_kGuestInstanceID := "guestInstanceId";
     options_kOpenerID := "openerId";
     isolated_bundle_data := "binding.send = null";
     api_Initialize := fun exports =>
       <["sendSync" := V8Function "sendSync"]>
         (<["send" := V8Function "send"]> exports) |}.

Definition flags (l : list (string * string)) : CommandLine :=
  {| HasSwitch := fun name =>
       bool_decide (is_Some ((list_to_map l : gmap string string) !! name));
     GetSwitchValueASCII := fun name =>
       default EmptyString ((list_to_map l : gmap string string) !! name) |}.

Definition main_frame : RenderFrame :=
  {| IsMainFrame := true;
     document_url := {| scheme := "https"; spec := "https://example.org/" |};
     document_getSecurityOrigin := "https://example.org" |}.

Definition sub_frame : RenderFrame :=
  {| IsMainFrame := false;
     document_url := {| scheme := "https"; spec := "https://ads.example/" |};
     document_getSecurityOrigin := "https://ads.example" |}.

Definition extension_frame : RenderFrame :=
  {| IsMainFrame := false;
     document_url :=
       {| scheme := "chrome-extension"; spec := "chrome-extension://abc/p.html" |};
     document_getSecurityOrigin := "chrome-extension://abc" |}.

Definition fresh_process : RendererProcess :=
  AtomRendererClient.new (flags [("opener-id", "7")]).

Definition isolated_process : RendererProcess :=
  AtomRendererClient.new
    (flags [("context-isolation", EmptyString); ("guest-instance-id", "3")]).

(** ** One callback and a run of callbacks, in closed form *)

(** The process a callback leaves: only a qualifying creation and a release
    past both guards change it. *)
Definition step_state (p : RendererProcess) (cb : HostCallback) : RendererProcess :=
  match cb with
  | OnDidCreateScriptContext _ context _ _ =>
      if qualifying_creation p cb then created context p else p
  | OnWillReleaseScriptContext frame context world_id =>
      if AtomRenderFrameObserver.ShouldNotifyClient p frame world_id
           && frame_allowed frame
      then released context p else p
  | _ => p
  end.

Fixpoint run_state (p : RendererProcess) (cbs : list HostCallback) : RendererProcess :=
  match cbs with
  | [] => p
  | cb :: rest => run_state (step_state p cb) rest
  end.

Section Steps.
Context `{Natives}.

(** The calls a callback makes. *)
Definition step_calls (p : RendererProcess) (cb : HostCallback) : list Call :=
  match cb with
  | OnDidClearWindowObject _ => [executeScript "void 0"]
  | OnDidCreateScriptContext frame context _ _ =>
      if qualifying_creation p cb then creation_calls context p
      else if bootstrap_condition p cb then bootstrap_calls frame context p
      else []
  | OnWillReleaseScriptContext frame context world_id =>
      if AtomRenderFrameObserver.ShouldNotifyClient p frame world_id
           && frame_allowed frame
      then release_calls context p else []
  | OnRunScriptsAtDocumentStart _ =>
      match uv_env_ p with
      | Some e => [EmitEvent e "document-start"]
      | None => []
      end
  | OnRunScriptsAtDocumentEnd _ =>
      match uv_env_ p with
      | Some e => [EmitEvent e "document-end"]
      | None => []
      end
  end.

Fixpoint run_calls (p : RendererProcess) (cbs : list HostCallback) : list Call :=
  match cbs with
  | [] => []
  | cb :: rest => step_calls p cb ++ run_calls (step_state p cb) rest
  end.

End Steps.

(** How many of the callbacks satisfy [f]. *)
Definition occurrences (f : HostCallback -> bool) (cbs : list HostCallback) : nat :=
  length (filter (fun cb => f cb = true) cbs).

Definition is_release (cb : HostCallback) : bool :=
  match cb with OnWillReleaseScriptContext _ _ _ => true | _ => false end.

(** A release that gets past the observer and the guard on frames. *)
Definition passing_release (p : RendererProcess) (cb : HostCallback) : bool :=
  match cb with
  | OnWillReleaseScriptContext frame _ world_id =>
      AtomRenderFrameObserver.ShouldNotifyClient p frame world_id
        && frame_allowed frame
  | _ => false
  end.

Definition is_exit (c : Call) : bool :=
  match c with EmitEvent _ name => String.eqb name "exit" | _ => false end.

Definition is_FreeEnvironment (c : Call) : bool :=
  match c with FreeEnvironment _ => true | _ => false end.

Definition is_live_FreeEnvironment (c : Call) : bool :=
  match c with FreeEnvironment (Some _) => true | _ => false end.

Definition is_EnvironmentDestroyed (c : Call) : bool :=
  match c with AtomBindings_EnvironmentDestroyed _ => true | _ => false end.

(** Environment handles are fresh: every environment bound to a context,
    and the default one, was handed out before the next one to come. *)
Definition handles_fresh (p : RendererProcess) : Prop :=
  (forall context e, environments p !! context = Some e ->
                     (e < next_environment p)%nat)
  /\ (forall e, uv_env_ p = Some e -> (e < next_environment p)%nat).

(** ** Monitors on the log of calls *)

Section Monitor.
Context {Q : Type} (ok : Q -> Call -> bool) (next : Q -> Call -> Q).

(** The log is accepted from [q] when each call is allowed in the state
    the calls before it lead to. *)
Fixpoint accepts (q : Q) (calls : list Call) : bool :=
  match calls with
  | [] => true
  | c :: rest => ok q c && accepts (next q c) rest
  end.

Definition final (q : Q) (calls : list Call) : Q := fold_left next calls q.

End Monitor.





(** The monitor of the bootstrap order: its state tells whether
    [Initialize] and [PrepareMessageLoop] have been called. *)
Definition order_ok (q : bool * bool) (c : Call) : bool :=
  match c with
  | NodeBindings_PrepareMessageLoop => q.1
  | NodeBindings_CreateEnvironment _ _ => q.1 && q.2
  | _ => true
  end.

Definition order_next (q : bool * bool) (c : Call) : bool * bool :=
  match c with
  | NodeBindings_Initialize => (true, q.2)
  | NodeBindings_PrepareMessageLoop => (q.1, true)
  | _ => q
  end.


(** What relates the process to the bootstrap calls seen: with the latch
    set, both have been made. *)
Definition order_invariant (p : RendererProcess) (q : bool * bool) : Prop :=
  node_integration_initialized_ p = true -> q = (true, true).

(** A sample session: a sub-frame and the main frame get their contexts,
    an extension frame too, the main frame's context is released and a new
    one created. *)
Definition sample_callbacks : list HostCallback :=
  [ OnDidClearWindowObject main_frame;
    OnDidCreateScriptContext sub_frame 5%nat 1 0;
    OnDidCreateScriptContext main_frame 1%nat 1 0;
    OnRunScriptsAtDocumentStart main_frame;
    OnDidCreateScriptContext extension_frame 2%nat 1 0;
    OnRunScriptsAtDocumentEnd main_frame;
    OnWillReleaseScriptContext main_frame 1%nat 0;
    OnWillReleaseScriptContext main_frame 9%nat 0;
    OnDidCreateScriptContext main_frame 3%nat 1 0 ].

(** * Properties *)

(** ** The monad and the closed forms *)

Lemma eta_process (p : RendererProcess) :
  {| command_line := command_line p;
     isolated_world_ := isolated_world_ p;
     node_integration_initialized_ := node_integration_initialized_ p;
     uv_env_ := uv_env_ p;
     environments := environments p;
     next_environment := next_environment p |} = p.
Proof. destruct p; reflexivity. Qed.

Lemma frame_allowed_guard (frame : RenderFrame) :
  negb (IsMainFrame frame) && negb (IsDevToolsExtension frame)
  = negb (frame_allowed frame).
Proof.
  unfold frame_allowed.
  destruct (IsMainFrame frame), (IsDevToolsExtension frame); reflexivity.
Qed.

Lemma frame_allowed_iff (frame : RenderFrame) :
  frame_allowed frame = true <->
  IsMainFrame frame = true \/ scheme (document_url frame) = "chrome-extension".
Proof.
  unfold frame_allowed, IsDevToolsExtension, SchemeIs.
  rewrite orb_true_iff, String.eqb_eq. reflexivity.
Qed.

Lemma client_create_blocked context frame p :
  frame_allowed frame = false ->
  AtomRendererClient.DidCreateScriptContext context frame p = Returned tt p [].
Proof.
  intros Hf. unfold AtomRendererClient.DidCreateScriptContext.
  rewrite frame_allowed_guard, Hf. reflexivity.
Qed.

Lemma client_create_allowed context frame p :
  frame_allowed frame = true ->
  AtomRendererClient.DidCreateScriptContext context frame p
  = Returned tt (created context p) (creation_calls context p).
Proof.
  intros Hf. unfold AtomRendererClient.DidCreateScriptContext.
  rewrite frame_allowed_guard, Hf.
  destruct p as [cl iw init [e|] envs nxt]; destruct init; reflexivity.
Qed.

Lemma client_release_blocked context frame p :
  frame_allowed frame = false ->
  AtomRendererClient.WillReleaseScriptContext context frame p = Returned tt p [].
Proof.
  intros Hf. unfold AtomRendererClient.WillReleaseScriptContext.
  rewrite frame_allowed_guard, Hf. reflexivity.
Qed.

Lemma client_release_allowed context frame p :
  frame_allowed frame = true ->
  AtomRendererClient.WillReleaseScriptContext context frame p
  = Returned tt (released context p) (release_calls context p).
Proof.
  intros Hf. unfold AtomRendererClient.WillReleaseScriptContext.
  rewrite frame_allowed_guard, Hf.
  unfold released, release_calls.
  destruct p as [cl iw init u envs nxt]; cbn.
  unfold bind, GetCurrent, bind, get, ret, when; cbn.
  destruct (envs !! context) as [e|] eqn:He; cbn;
    case_bool_decide; cbn; reflexivity.
Qed.

Section Observer.
Context `{Natives}.

Lemma worlds_apart (world_id : Z) :
  AtomRenderFrameObserver.IsIsolatedWorld world_id = true ->
  AtomRenderFrameObserver.IsMainWorld world_id = false.
Proof.
  unfold AtomRenderFrameObserver.IsIsolatedWorld,
    AtomRenderFrameObserver.IsMainWorld, World.ISOLATED_WORLD, World.MAIN_WORLD.
  intros Hw%Z.eqb_eq. subst world_id. reflexivity.
Qed.

Lemma bootstrap_run frame context p :
  (do_ AtomRenderFrameObserver.CreateIsolatedWorldContext frame;
   AtomRenderFrameObserver.SetupMainWorldOverrides context) p
  = Returned tt p (bootstrap_calls frame context p).
Proof. reflexivity. Qed.

(** A qualifying creation never coincides with the bootstrap. *)
Lemma qualifying_excludes_bootstrap p cb :
  qualifying_creation p cb = true -> bootstrap_condition p cb = false.
Proof.
  destruct cb as [|frame context g w| | |]; cbn; try discriminate.
  unfold AtomRenderFrameObserver.ShouldNotifyClient, frame_allowed.
  destruct (isolated_world_ p), (IsMainFrame frame); cbn; try reflexivity.
  - intros [Hw _]%andb_true_iff. apply worlds_apart in Hw.
    unfold AtomRenderFrameObserver.IsMainWorld in Hw. rewrite Hw. reflexivity.
  - rewrite andb_false_r. reflexivity.
Qed.

Lemma observer_create frame context g w p :
  AtomRenderFrameObserver.DidCreateScriptContext frame context g w p
  = if qualifying_creation p (OnDidCreateScriptContext frame context g w)
    then Returned tt (created context p) (creation_calls context p)
    else Returned tt p
           (if bootstrap_condition p (OnDidCreateScriptContext frame context g w)
            then bootstrap_calls frame context p else []).
Proof.
  pose proof (qualifying_excludes_bootstrap p
                (OnDidCreateScriptContext frame context g w)) as Hex.
  unfold AtomRenderFrameObserver.DidCreateScriptContext.
  cbn [qualifying_creation bootstrap_condition] in *.
  unfold bind at 1. cbn [get].
  destruct (AtomRenderFrameObserver.ShouldNotifyClient p frame w) eqn:Hn;
    cbn [when andb].
  - destruct (frame_allowed frame) eqn:Hf.
    + unfold bind at 1. rewrite client_create_allowed by assumption.
      unfold bind. cbn [get created isolated_world_].
      fold (AtomRenderFrameObserver.IsMainWorld w).
      unfold AtomRenderFrameObserver.IsMainWorld.
      rewrite (Hex eq_refl). cbn. rewrite app_nil_r. reflexivity.
    + unfold bind at 1. rewrite client_create_blocked by assumption.
      unfold bind at 1. cbn [get app].
      unfold AtomRenderFrameObserver.IsMainWorld.
      destruct (isolated_world_ p && (w =? World.MAIN_WORLD)%Z && IsMainFrame frame);
        cbn [when]; [rewrite bootstrap_run|]; reflexivity.
  - unfold bind at 1. cbn [ret]. unfold bind at 1. cbn [get app].
    unfold AtomRenderFrameObserver.IsMainWorld.
    destruct (isolated_world_ p && (w =? World.MAIN_WORLD)%Z && IsMainFrame frame);
      cbn [when]; [rewrite bootstrap_run|]; reflexivity.
Qed.

Lemma observer_release frame context w p :
  AtomRenderFrameObserver.WillReleaseScriptContext frame context w p
  = if AtomRenderFrameObserver.ShouldNotifyClient p frame w && frame_allowed frame
    then Returned tt (released context p) (release_calls context p)
    else Returned tt p [].
Proof.
  unfold AtomRenderFrameObserver.WillReleaseScriptContext.
  unfold bind at 1. cbn [get].
  destruct (AtomRenderFrameObserver.ShouldNotifyClient p frame w); cbn [when andb].
  - destruct (frame_allowed frame) eqn:Hf.
    + rewrite client_release_allowed by assumption. reflexivity.
    + rewrite client_release_blocked by assumption. reflexivity.
  - reflexivity.
Qed.

Lemma document_hook name p :
  (do env <- uv_env;
   when (bool_decide (env <> None)) (mate_EmitEvent env name)) p
  = Returned tt p match uv_env_ p with
                  | Some e => [EmitEvent e name]
                  | None => []
                  end.
Proof. destruct p as [cl iw init [e|] envs nxt]; reflexivity. Qed.

End Observer.

(** ** Counting calls *)

Lemma count_app (f : Call -> bool) (l1 l2 : list Call) :
  count f (l1 ++ l2) = (count f l1 + count f l2)%nat.
Proof. unfold count. rewrite filter_app, length_app. reflexivity. Qed.

Lemma count_creation_Initialize context p :
  count is_Initialize (creation_calls context p)
  = if node_integration_initialized_ p then 0%nat else 1%nat.
Proof.
  unfold creation_calls.
  destruct (node_integration_initialized_ p), (uv_env_ p); reflexivity.
Qed.

Lemma count_creation_PrepareMessageLoop context p :
  count is_PrepareMessageLoop (creation_calls context p)
  = if node_integration_initialized_ p then 0%nat else 1%nat.
Proof.
  unfold creation_calls.
  destruct (node_integration_initialized_ p), (uv_env_ p); reflexivity.
Qed.

Lemma count_creation_RunMessageLoop context p :
  count is_RunMessageLoop (creation_calls context p)
  = match uv_env_ p with Some _ => 0%nat | None => 1%nat end.
Proof.
  unfold creation_calls.
  destruct (node_integration_initialized_ p), (uv_env_ p); reflexivity.
Qed.

Lemma count_release (f : Call -> bool) context p :
  (forall e name, f (EmitEvent e name) = false) ->
  (forall e, f (FreeEnvironment e) = false) ->
  (forall e, f (AtomBindings_EnvironmentDestroyed e) = false) ->
  count f (release_calls context p) = 0%nat.
Proof.
  intros He Hf Hd. unfold release_calls, count.
  destruct (environments p !! context) as [e|]; cbn;
    rewrite ?decide_False by (rewrite ?He, ?Hf, ?Hd; discriminate);
    reflexivity.
Qed.

(** ** One callback, then many *)

Lemma quiet_refl p calls :
  count is_Initialize calls = 0%nat ->
  count is_PrepareMessageLoop calls = 0%nat ->
  count is_CreateEnvironment calls = 0%nat ->
  count is_RunMessageLoop calls = 0%nat ->
  quiet p p calls.
Proof. unfold quiet. intuition. Qed.

Lemma quiet_released context p :
  quiet p (released context p) (release_calls context p).
Proof.
  unfold quiet. cbn. repeat split; try (apply count_release; reflexivity).
  intros Hu. rewrite Hu. case_bool_decide; reflexivity.
Qed.

Lemma qualifying_creation_ext p p' cb :
  isolated_world_ p' = isolated_world_ p ->
  qualifying_creation p' cb = qualifying_creation p cb.
Proof.
  intros Hiw. destruct cb; cbn; try reflexivity.
  unfold AtomRenderFrameObserver.ShouldNotifyClient. rewrite Hiw. reflexivity.
Qed.

Lemma existsb_qualifying_ext p p' cbs :
  isolated_world_ p' = isolated_world_ p ->
  existsb (qualifying_creation p') cbs = existsb (qualifying_creation p) cbs.
Proof.
  intros Hiw. induction cbs as [|cb rest IH]; cbn; [reflexivity|].
  rewrite IH, (qualifying_creation_ext p p' cb Hiw). reflexivity.
Qed.

Section Runs.
Context `{Natives}.

Lemma dispatch_qualifying cb p :
  qualifying_creation p cb = true ->
  exists frame context g w,
    cb = OnDidCreateScriptContext frame context g w
    /\ dispatch cb p
       = Returned tt (created context p) (creation_calls context p).
Proof.
  intros Hq. destruct cb as [|frame context g w| | |]; try discriminate.
  exists frame, context, g, w. split; [reflexivity|].
  cbn [dispatch]. rewrite observer_create, Hq. reflexivity.
Qed.

Lemma dispatch_quiet cb p :
  qualifying_creation p cb = false ->
  exists p' calls, dispatch cb p = Returned tt p' calls /\ quiet p p' calls.
Proof.
  intros Hq. destruct cb as [frame|frame context g w|frame context w|frame|frame];
    cbn [dispatch].
  - exists p, [executeScript "void 0"]. split; [reflexivity|].
    apply quiet_refl; reflexivity.
  - rewrite observer_create, Hq.
    eexists _, _. split; [reflexivity|].
    destruct (bootstrap_condition _ _); apply quiet_refl; reflexivity.
  - rewrite observer_release.
    destruct (_ && _).
    + eexists _, _. split; [reflexivity|]. apply quiet_released.
    + eexists _, _. split; [reflexivity|]. apply quiet_refl; reflexivity.
  - unfold AtomRendererClient.RunScriptsAtDocumentStart. rewrite document_hook.
    eexists _, _. split; [reflexivity|].
    destruct (uv_env_ p); apply quiet_refl; reflexivity.
  - unfold AtomRendererClient.RunScriptsAtDocumentEnd. rewrite document_hook.
    eexists _, _. split; [reflexivity|].
    destruct (uv_env_ p); apply quiet_refl; reflexivity.
Qed.

(** No callback faults. *)
Lemma dispatch_returns cb p :
  exists p' calls,
    dispatch cb p = Returned tt p' calls
    /\ isolated_world_ p' = isolated_world_ p.
Proof.
  destruct (qualifying_creation p cb) eqn:Hq.
  - destruct (dispatch_qualifying cb p Hq) as (frame & context & g & w & _ & Hd).
    eexists _, _. split; [exact Hd|]. reflexivity.
  - destruct (dispatch_quiet cb p Hq) as (p' & calls & Hd & Hquiet).
    exists p', calls. split; [exact Hd|]. apply Hquiet.
Qed.

Lemma run_cons cb rest p p1 c1 :
  dispatch cb p = Returned tt p1 c1 ->
  run (cb :: rest) p
  = match run rest p1 with
    | Returned a p2 c2 => Returned a p2 (c1 ++ c2)
    | Faulted c2 => Faulted (c1 ++ c2)
    end.
Proof. intros Hd. cbn [run]. unfold bind. rewrite Hd. reflexivity. Qed.

Lemma run_returns cbs p :
  exists p' calls,
    run cbs p = Returned tt p' calls
    /\ isolated_world_ p' = isolated_world_ p.
Proof.
  revert p. induction cbs as [|cb rest IH]; intros p.
  - exists p, []. split; reflexivity.
  - destruct (dispatch_returns cb p) as (p1 & c1 & Hd & Hiw1).
    destruct (IH p1) as (p2 & c2 & Hr & Hiw2).
    exists p2, (c1 ++ c2). rewrite (run_cons _ _ _ _ _ Hd), Hr.
    split; [reflexivity|congruence].
Qed.

Lemma run_app before after p p1 c1 :
  run before p = Returned tt p1 c1 ->
  run (before ++ after) p
  = match run after p1 with
    | Returned a p2 c2 => Returned a p2 (c1 ++ c2)
    | Faulted c2 => Faulted (c1 ++ c2)
    end.
Proof.
  revert p p1 c1. induction before as [|cb rest IH]; intros p p1 c1 Hr.
  - cbn in Hr. injection Hr as <- <-. cbn [app].
    destruct (run after p); reflexivity.
  - destruct (dispatch_returns cb p) as (q & cq & Hd & _).
    rewrite (run_cons _ _ _ _ _ Hd) in Hr.
    destruct (run rest q) as [[] q1 cq1|] eqn:Hrest; [|discriminate].
    injection Hr as <- <-.
    cbn [app]. rewrite (run_cons _ _ _ _ _ Hd), (IH _ _ _ Hrest).
    destruct (run after q1); rewrite app_assoc; reflexivity.
Qed.

(** With no qualifying creation among them, callbacks are quiet. *)
Lemma run_quiet cbs p :
  existsb (qualifying_creation p) cbs = false ->
  exists p' calls, run cbs p = Returned tt p' calls /\ quiet p p' calls.
Proof.
  revert p. induction cbs as [|cb rest IH]; intros p Hnone.
  - exists p, []. split; [reflexivity|]. apply quiet_refl; reflexivity.
  - cbn [existsb] in Hnone. apply orb_false_iff in Hnone as [Hcb Hrest].
    destruct (dispatch_quiet cb p Hcb) as (p1 & c1 & Hd & Hq1).
    assert (Hiw : isolated_world_ p1 = isolated_world_ p) by apply Hq1.
    destruct (IH p1) as (p2 & c2 & Hr & Hq2).
    { rewrite <- Hrest. apply existsb_qualifying_ext, Hiw. }
    exists p2, (c1 ++ c2). rewrite (run_cons _ _ _ _ _ Hd), Hr.
    split; [reflexivity|].
    destruct Hq1 as (Ha1 & Hb1 & Hc1 & Hd1 & He1 & Hf1 & Hg1 & Hh1).
    destruct Hq2 as (Ha2 & Hb2 & Hc2 & Hd2 & He2 & Hf2 & Hg2 & Hh2).
    unfold quiet. rewrite !count_app, He1, He2, Hf1, Hf2, Hg1, Hg2, Hh1, Hh2.
    repeat split; try congruence. auto.
Qed.

(** Once latched, the bootstrap is never run again. *)
Lemma run_latched cbs p :
  node_integration_initialized_ p = true ->
  exists p' calls,
    run cbs p = Returned tt p' calls
    /\ node_integration_initialized_ p' = true
    /\ count is_Initialize calls = 0%nat
    /\ count is_PrepareMessageLoop calls = 0%nat.
Proof.
  revert p. induction cbs as [|cb rest IH]; intros p Hl.
  - exists p, []. repeat split; assumption || reflexivity.
  - assert (exists p1 c1, dispatch cb p = Returned tt p1 c1
              /\ node_integration_initialized_ p1 = true
              /\ count is_Initialize c1 = 0%nat
              /\ count is_PrepareMessageLoop c1 = 0%nat)
      as (p1 & c1 & Hd & Hl1 & Hi1 & Hp1).
    { destruct (qualifying_creation p cb) eqn:Hq.
      - destruct (dispatch_qualifying cb p Hq) as (fr & ctx & g & w & _ & Hd).
        eexists _, _. split; [exact Hd|].
        rewrite count_creation_Initialize, count_creation_PrepareMessageLoop, Hl.
        repeat split.
      - destruct (dispatch_quiet cb p Hq) as (p1 & c1 & Hd & Hq1).
        exists p1, c1. split; [exact Hd|].
        destruct Hq1 as (_ & _ & Hc1 & _ & He1 & Hf1 & _).
        repeat split; congruence. }
    destruct (IH p1 Hl1) as (p2 & c2 & Hr & Hl2 & Hi2 & Hp2).
    exists p2, (c1 ++ c2). rewrite (run_cons _ _ _ _ _ Hd), Hr.
    rewrite !count_app, Hi1, Hi2, Hp1, Hp2. repeat split; assumption.
Qed.

End Runs.

(** * Properties of the specification *)

(** ** World selection *)

(** C3. For every isolated-mode flag, frame and world id,
    [ShouldNotifyClient] answers true exactly when the world id is the
    isolated world (999) for the main frame in isolated mode, and exactly
    when it is the main world (0) in every other case. *)
Theorem ShouldNotifyClient_world_selection
    (p : RendererProcess) (frame : RenderFrame) (world_id : Z) :
  AtomRenderFrameObserver.ShouldNotifyClient p frame world_id = true <->
  (isolated_world_ p = true /\ IsMainFrame frame = true
     /\ world_id = World.ISOLATED_WORLD)
  \/ (~ (isolated_world_ p = true /\ IsMainFrame frame = true)
        /\ world_id = World.MAIN_WORLD).
Proof.
  unfold AtomRenderFrameObserver.ShouldNotifyClient,
    AtomRenderFrameObserver.IsIsolatedWorld, AtomRenderFrameObserver.IsMainWorld.
  destruct (isolated_world_ p), (IsMainFrame frame); cbn [andb];
    rewrite Z.eqb_eq; intuition congruence.
Qed.

(** ** Navigation *)

(** C9. For every frame, URL, method and pair of flags, [ShouldFork]
    returns true exactly when the HTTP method is the string GET, and it
    stores true through [send_referrer] whatever the method is. *)
Theorem ShouldFork_only_GET
    (frame : RenderFrame) (url : GURL) (http_method : string)
    (is_initial_navigation is_server_redirect : bool) :
  let r := AtomRendererClient.ShouldFork
             frame url http_method is_initial_navigation is_server_redirect in
  (r.1 = true <-> http_method = "GET") /\ r.2 = true.
Proof.
  cbn. split; [apply String.eqb_eq | reflexivity].
Qed.

(** ** Document hooks *)

(** C10. [RunScriptsAtDocumentStart] and [RunScriptsAtDocumentEnd] return
    with the process exactly as it was (latch, default environment and
    bindings of environments included); their only call is the emission of
    "document-start", respectively "document-end", into the default
    environment when there is one, and they make no call when there is
    none. *)
Theorem document_hooks_emit_into_default (frame : RenderFrame) (p : RendererProcess) :
  AtomRendererClient.RunScriptsAtDocumentStart frame p
  = Returned tt p match uv_env_ p with
                  | Some e => [EmitEvent e "document-start"]
                  | None => []
                  end
  /\ AtomRendererClient.RunScriptsAtDocumentEnd frame p
     = Returned tt p match uv_env_ p with
                     | Some e => [EmitEvent e "document-end"]
                     | None => []
                     end.
Proof.
  split.
  - unfold AtomRendererClient.RunScriptsAtDocumentStart. apply document_hook.
  - unfold AtomRendererClient.RunScriptsAtDocumentEnd. apply document_hook.
Qed.

(** ** The guard on frames *)

(** C5. On a context creation forwarded to the client: if the frame is the
    main frame or its document has the scheme chrome-extension, the client
    returns having created one environment, bound to the context, bound the
    extended APIs to it and loaded it, in this order; otherwise it returns
    at once with the process unchanged and no call made. So an environment
    is created exactly when the frame is the main frame or has that
    scheme. *)
Theorem environment_created_iff_frame_allowed
    (context : Context) (frame : RenderFrame) (p : RendererProcess) :
  let o := AtomRendererClient.DidCreateScriptContext context frame p in
  let e := next_environment p in
  let allowed :=
    IsMainFrame frame = true \/ scheme (document_url frame) = "chrome-extension" in
  (allowed ->
   exists p' before after,
     o = Returned tt p'
           (before
              ++ [NodeBindings_CreateEnvironment context e;
                  AtomBindings_BindTo e;
                  AddRenderBindings e;
                  NodeBindings_LoadEnvironment (Some e)]
              ++ after)
     /\ environments p' !! context = Some e
     /\ count is_CreateEnvironment before = 0%nat
     /\ count is_CreateEnvironment after = 0%nat)
  /\ (~ allowed -> o = Returned tt p [])
  /\ (count is_CreateEnvironment (calls_of o) = 1%nat <-> allowed)
  /\ (count is_CreateEnvironment (calls_of o) = 0%nat <-> ~ allowed).
Proof.
  cbn zeta. rewrite <- frame_allowed_iff.
  destruct (frame_allowed frame) eqn:Hf.
  - rewrite client_create_allowed by assumption.
    assert (Hcount : count is_CreateEnvironment (creation_calls context p) = 1%nat).
    { unfold creation_calls.
      destruct (node_integration_initialized_ p), (uv_env_ p); reflexivity. }
    split; [|split; [|split]].
    + intros _. eexists _, _, _. split; [reflexivity|].
      split; [apply lookup_insert_eq|].
      split; [destruct (node_integration_initialized_ p)|destruct (uv_env_ p)];
        reflexivity.
    + intros Hn. exfalso. apply Hn. reflexivity.
    + cbn [calls_of]. split; [reflexivity|intros _; exact Hcount].
    + cbn [calls_of]. rewrite Hcount. split; [discriminate|].
      intros Hn. exfalso. apply Hn. reflexivity.
  - rewrite client_create_blocked by assumption.
    split; [|split; [|split]].
    + discriminate.
    + reflexivity.
    + cbn. split; discriminate.
    + cbn. split; [intros _; discriminate|reflexivity].
Qed.

(** ** The release path *)

(** C7. On a release that passes the guard on frames, [FreeEnvironment] and
    then [EnvironmentDestroyed] are called whatever the lookup of the
    context's environment gave, both with that pointer, null when no
    environment is bound; the "exit" event is emitted only when the lookup
    found an environment, and the default is cleared only when the pointer
    found equals it. *)
Theorem release_frees_unconditionally
    (context : Context) (frame : RenderFrame) (p : RendererProcess) :
  frame_allowed frame = true ->
  let env := environments p !! context in
  exists p',
    AtomRendererClient.WillReleaseScriptContext context frame p
    = Returned tt p'
        (match env with
         | Some e => [EmitEvent e "exit"]
         | None => []
         end
         ++ [FreeEnvironment env; AtomBindings_EnvironmentDestroyed env])
    /\ uv_env_ p' = (if bool_decide (env = uv_env_ p) then None else uv_env_ p)
    /\ (env = None ->
        calls_of (AtomRendererClient.WillReleaseScriptContext context frame p)
        = [FreeEnvironment None; AtomBindings_EnvironmentDestroyed None]).
Proof.
  intros Hf env. rewrite client_release_allowed by assumption.
  exists (released context p). split; [reflexivity|]. split; [reflexivity|].
  intros Henv. cbn [calls_of]. unfold release_calls. fold env.
  rewrite Henv. reflexivity.
Qed.

(** C6. On a release that passes the guard on frames for a context with no
    environment bound to it, the client returns (it follows no null
    pointer), the process is exactly as it was, and no event is emitted:
    the calls it makes are the two destruction calls of C7, each handed the
    null pointer. *)
Theorem release_without_environment
    (context : Context) (frame : RenderFrame) (p : RendererProcess) :
  frame_allowed frame = true ->
  environments p !! context = None ->
  exists calls,
    AtomRendererClient.WillReleaseScriptContext context frame p
    = Returned tt p calls
    /\ count is_EmitEvent calls = 0%nat
    /\ calls = [FreeEnvironment None; AtomBindings_EnvironmentDestroyed None].
Proof.
  intros Hf Henv. rewrite client_release_allowed by assumption.
  exists (release_calls context p). split.
  - f_equal. unfold released. rewrite Henv.
    destruct p as [cl iw init u envs nxt]; cbn.
    case_bool_decide as Hu; [rewrite <- Hu|]; reflexivity.
  - unfold release_calls. rewrite Henv. split; reflexivity.
Qed.

(** ** The isolated-world bootstrap *)

Section IsolatedWorld.
Context `{Natives}.

Lemma binding_of_hiddenPage (cl : CommandLine) :
  AtomRenderFrameObserver.binding_of cl !! "hiddenPage"
  = Some (V8Boolean (HasSwitch cl switches.kHiddenPage)).
Proof. unfold AtomRenderFrameObserver.binding_of. apply lookup_insert_eq. Qed.

(** C8. Provided the two option keys differ from each other and from
    hiddenPage and are not among the properties [api::Initialize]
    installs, the object handed to the bundle has the guest-instance-id
    key exactly when the flag was given, then with the flag's value; the
    opener-id key likewise; and always the key hiddenPage, with the
    presence of the hidden-page flag as a boolean. That object is the one
    argument of the call of the compiled bundle. *)
Theorem binding_object_flags (cl : CommandLine) :
  options_kGuestInstanceID <> options_kOpenerID ->
  options_kGuestInstanceID <> "hiddenPage" ->
  options_kOpenerID <> "hiddenPage" ->
  api_Initialize ∅ !! options_kGuestInstanceID = None ->
  api_Initialize ∅ !! options_kOpenerID = None ->
  let binding := AtomRenderFrameObserver.binding_of cl in
  binding !! options_kGuestInstanceID
  = (if HasSwitch cl switches.kGuestInstanceID
     then Some (V8String (GetSwitchValueASCII cl switches.kGuestInstanceID))
     else None)
  /\ binding !! options_kOpenerID
     = (if HasSwitch cl switches.kOpenerID
        then Some (V8String (GetSwitchValueASCII cl switches.kOpenerID))
        else None)
  /\ binding !! "hiddenPage"
     = Some (V8Boolean (HasSwitch cl switches.kHiddenPage))
  /\ forall context p,
       command_line p = cl ->
       exists calls,
         AtomRenderFrameObserver.SetupMainWorldOverrides context p
         = Returned tt p (calls ++ [Function_Call context [binding]]).
Proof.
  intros Hgo Hgh Hoh Hg Ho binding. subst binding.
  split; [|split; [|split]].
  - unfold AtomRenderFrameObserver.binding_of, Dictionary_Set.
    rewrite lookup_insert_ne by congruence.
    destruct (HasSwitch cl switches.kGuestInstanceID),
      (HasSwitch cl switches.kOpenerID);
      rewrite ?(lookup_insert_ne _ options_kOpenerID) by congruence;
      rewrite ?lookup_insert_eq; auto.
  - unfold AtomRenderFrameObserver.binding_of, Dictionary_Set.
    rewrite lookup_insert_ne by congruence.
    destruct (HasSwitch cl switches.kGuestInstanceID),
      (HasSwitch cl switches.kOpenerID);
      rewrite ?lookup_insert_eq; auto;
      rewrite ?(lookup_insert_ne _ options_kGuestInstanceID) by congruence;
      auto.
  - apply binding_of_hiddenPage.
  - intros context p <-. eexists [_; _; _]. reflexivity.
Qed.

(** C4. In isolated mode, on the creation of the main-world context of a
    main frame, the observer returns with the process unchanged, so with
    no environment attached to that context, having made exactly these
    calls: it names the isolated world, copies the document's security
    origin into it, runs "void 0" in it, then compiles and runs the
    wrapped bundle in the created context and calls it with the binding
    object. Over all callbacks, a call of this bootstrap is made exactly
    when the callback is a context creation for the main world of a main
    frame in isolated mode. *)
Theorem isolated_world_bootstrap (p : RendererProcess) :
  (forall frame context extension_group world_id,
      isolated_world_ p = true ->
      IsMainFrame frame = true ->
      world_id = World.MAIN_WORLD ->
      dispatch (OnDidCreateScriptContext frame context extension_group world_id) p
      = Returned tt p
          [ setIsolatedWorldHumanReadableName
              World.ISOLATED_WORLD "Electron Isolated Context";
            setIsolatedWorldSecurityOrigin
              World.ISOLATED_WORLD (document_getSecurityOrigin frame);
            executeScriptInIsolatedWorld
              World.ISOLATED_WORLD "void 0" 1 ExtensionGroup.MAIN_GROUP;
            Script_Compile
              ("(function (binding, require) {"
                 +:+ AtomRenderFrameObserver.newline
                 +:+ isolated_bundle_data
                 +:+ AtomRenderFrameObserver.newline +:+ "})");
            Script_Run context;
            api_Initialize_on context;
            Function_Call context
              [AtomRenderFrameObserver.binding_of (command_line p)] ])
  /\ (forall cb,
        existsb is_bootstrap_call (calls_of (dispatch cb p)) = true <->
        exists frame context extension_group,
          cb = OnDidCreateScriptContext
                 frame context extension_group World.MAIN_WORLD
          /\ isolated_world_ p = true
          /\ IsMainFrame frame = true).
Proof.
  assert (Hcond : forall cb,
             existsb is_bootstrap_call (calls_of (dispatch cb p))
             = bootstrap_condition p cb).
  { intros cb.
    destruct cb as [frame|frame context g w|frame context w|frame|frame];
      cbn [dispatch].
    - reflexivity.
    - rewrite observer_create.
      destruct (qualifying_creation p _) eqn:Hq.
      + rewrite (qualifying_excludes_bootstrap _ _ Hq). cbn [calls_of].
        unfold creation_calls.
        destruct (node_integration_initialized_ p), (uv_env_ p); reflexivity.
      + cbn [calls_of].
        destruct (bootstrap_condition p _); reflexivity.
    - rewrite observer_release. destruct (_ && _); cbn [calls_of]; [|reflexivity].
      unfold release_calls. destruct (environments p !! context); reflexivity.
    - unfold AtomRendererClient.RunScriptsAtDocumentStart. rewrite document_hook.
      destruct (uv_env_ p); reflexivity.
    - unfold AtomRendererClient.RunScriptsAtDocumentEnd. rewrite document_hook.
      destruct (uv_env_ p); reflexivity. }
  split.
  - intros frame context g w Hiw Hmf ->. cbn [dispatch].
    rewrite observer_create.
    assert (Hb : bootstrap_condition p
                   (OnDidCreateScriptContext frame context g World.MAIN_WORLD)
                 = true)
      by (cbn; rewrite Hiw, Hmf; reflexivity).
    destruct (qualifying_creation p _) eqn:Hq.
    + apply qualifying_excludes_bootstrap in Hq. congruence.
    + rewrite Hb. reflexivity.
  - intros cb. rewrite Hcond. split.
    + destruct cb as [|frame context g w| | |]; cbn; try discriminate.
      intros [[Hiw Hw%Z.eqb_eq]%andb_true_iff Hmf]%andb_true_iff.
      subst w. exists frame, context, g. auto.
    + intros (frame & context & g & -> & Hiw & Hmf).
      cbn. rewrite Hiw, Hmf. reflexivity.
Qed.

End IsolatedWorld.

(** ** The default environment and the bootstrap latch *)

Section Lifecycle.
Context `{Natives}.

(** C1. At most one environment is the default. A qualifying creation
    that finds no default makes the environment it creates the default
    and runs the message loop once, as its last call; one that finds a
    default keeps it and does not run the loop. A release, past both
    guards, of the context whose environment is the default leaves no
    default; and from a process without default, callbacks among which
    there is no qualifying creation leave it without default. *)
Theorem default_environment_designation (p : RendererProcess) :
  (forall e1 e2, is_default p e1 -> is_default p e2 -> e1 = e2)
  /\ (forall frame context extension_group world_id,
        qualifying_creation p
          (OnDidCreateScriptContext frame context extension_group world_id)
        = true ->
        uv_env_ p = None ->
        exists p' calls,
          dispatch
            (OnDidCreateScriptContext frame context extension_group world_id) p
          = Returned tt p' (calls ++ [NodeBindings_RunMessageLoop])
          /\ environments p' !! context = Some (next_environment p)
          /\ is_default p' (next_environment p)
          /\ count is_RunMessageLoop calls = 0%nat)
  /\ (forall frame context extension_group world_id e,
        qualifying_creation p
          (OnDidCreateScriptContext frame context extension_group world_id)
        = true ->
        is_default p e ->
        exists p' calls,
          dispatch
            (OnDidCreateScriptContext frame context extension_group world_id) p
          = Returned tt p' calls
          /\ is_default p' e
          /\ count is_RunMessageLoop calls = 0%nat)
  /\ (forall frame context world_id e,
        AtomRenderFrameObserver.ShouldNotifyClient p frame world_id = true ->
        frame_allowed frame = true ->
        environments p !! context = Some e ->
        is_default p e ->
        exists p' calls,
          dispatch (OnWillReleaseScriptContext frame context world_id) p
          = Returned tt p' calls
          /\ uv_env_ p' = None)
  /\ (forall cbs,
        uv_env_ p = None ->
        existsb (qualifying_creation p) cbs = false ->
        exists p' calls,
          run cbs p = Returned tt p' calls
          /\ uv_env_ p' = None
          /\ count is_RunMessageLoop calls = 0%nat).
Proof.
  split; [|split; [|split; [|split]]].
  - unfold is_default. congruence.
  - intros frame context g w Hq Hu. cbn [dispatch].
    rewrite observer_create, Hq.
    exists (created context p). unfold creation_calls, is_default. rewrite Hu.
    eexists. split; [rewrite app_assoc; reflexivity|].
    split; [apply lookup_insert_eq|].
    split; [cbn; rewrite Hu; reflexivity|].
    destruct (node_integration_initialized_ p); reflexivity.
  - intros frame context g w e Hq Hu. cbn [dispatch].
    rewrite observer_create, Hq. unfold is_default in *.
    eexists _, _. split; [reflexivity|].
    split; [cbn; rewrite Hu; reflexivity|].
    rewrite count_creation_RunMessageLoop, Hu. reflexivity.
  - intros frame context w e Hn Hf Henv Hu. cbn [dispatch].
    rewrite observer_release, Hn, Hf. unfold is_default in Hu.
    eexists _, _. split; [reflexivity|].
    cbn. rewrite Henv, Hu, bool_decide_eq_true_2; reflexivity.
  - intros cbs Hu Hnone.
    destruct (run_quiet cbs p Hnone) as (p' & calls & Hr & Hquiet).
    exists p', calls. split; [exact Hr|].
    destruct Hquiet as (_ & _ & _ & Hu' & _ & _ & _ & Hloop). auto.
Qed.

(** C2. From a process whose latch is not set, let callbacks arrive of
    which [cb] is the first qualifying creation. All of them return; the
    callbacks before [cb] call neither [Initialize] nor
    [PrepareMessageLoop] and leave the latch unset; [cb] sets the latch
    and starts with one call of [Initialize] and one of
    [PrepareMessageLoop]; and the callbacks after it, whatever they are,
    call neither again and leave the latch set. *)
Theorem bootstrap_exactly_once
    (p0 : RendererProcess) (before after : list HostCallback)
    (cb : HostCallback) :
  node_integration_initialized_ p0 = false ->
  existsb (qualifying_creation p0) before = false ->
  qualifying_creation p0 cb = true ->
  exists p1 c1 p2 c2 p3 c3,
    run before p0 = Returned tt p1 c1
    /\ dispatch cb p1
       = Returned tt p2
           (NodeBindings_Initialize :: NodeBindings_PrepareMessageLoop :: c2)
    /\ run after p2 = Returned tt p3 c3
    /\ run (before ++ cb :: after) p0
       = Returned tt p3
           (c1 ++ (NodeBindings_Initialize
                     :: NodeBindings_PrepareMessageLoop :: c2) ++ c3)
    /\ (count is_Initialize c1 = 0%nat
        /\ count is_PrepareMessageLoop c1 = 0%nat)
    /\ (count is_Initialize c2 = 0%nat
        /\ count is_PrepareMessageLoop c2 = 0%nat)
    /\ (count is_Initialize c3 = 0%nat
        /\ count is_PrepareMessageLoop c3 = 0%nat)
    /\ node_integration_initialized_ p1 = false
    /\ node_integration_initialized_ p2 = true
    /\ node_integration_initialized_ p3 = true.
Proof.
  intros Hl0 Hnone Hq.
  destruct (run_quiet before p0 Hnone) as (p1 & c1 & Hr1 & Hquiet).
  destruct Hquiet as (_ & Hiw & Hl1 & _ & Hi1 & Hp1 & _ & _).
  rewrite Hl0 in Hl1.
  rewrite <- (qualifying_creation_ext p0 p1 cb Hiw) in Hq.
  destruct (dispatch_qualifying cb p1 Hq) as (frame & context & g & w & -> & Hd).
  destruct (run_latched after (created context p1) eq_refl)
    as (p3 & c3 & Hr3 & Hl3 & Hi3 & Hp3).
  unfold creation_calls in Hd. rewrite Hl1 in Hd. cbn [app] in Hd.
  eexists p1, c1, (created context p1), _, p3, c3.
  split; [exact Hr1|]. split; [exact Hd|]. split; [exact Hr3|].
  split.
  { rewrite (run_app _ _ _ _ _ Hr1), (run_cons _ _ _ _ _ Hd), Hr3.
    reflexivity. }
  split; [split; assumption|].
  split; [destruct (uv_env_ p1); split; reflexivity|].
  split; [split; assumption|].
  split; [assumption|]. split; [reflexivity|assumption].
Qed.

End Lifecycle.

(** * The properties on sample inputs *)

Lemma default_environment_designation_witness :
  (exists p' calls,
      @dispatch sample_natives (OnDidCreateScriptContext main_frame 1%nat 1 0)
        fresh_process
      = Returned tt p' (calls ++ [NodeBindings_RunMessageLoop])
      /\ environments p' !! 1%nat = Some 0%nat
      /\ is_default p' 0%nat
      /\ count is_RunMessageLoop calls = 0%nat)
  /\ (exists p' calls,
        @dispatch sample_natives (OnWillReleaseScriptContext main_frame 1%nat 0)
          (created 1%nat fresh_process)
        = Returned tt p' calls
        /\ uv_env_ p' = None).
Proof.
  split.
  - apply (proj1 (proj2
             (@default_environment_designation sample_natives fresh_process)));
      reflexivity.
  - apply (proj1 (proj2 (proj2 (proj2
             (@default_environment_designation sample_natives
                (created 1%nat fresh_process)))))
             main_frame 1%nat 0%Z 0%nat);
      reflexivity.
Defined.

Lemma bootstrap_exactly_once_witness :
  exists p calls,
    @run sample_natives
      ([OnDidClearWindowObject main_frame;
        OnDidCreateScriptContext sub_frame 5%nat 1 0]
         ++ OnDidCreateScriptContext main_frame 1%nat 1 0
         :: [OnDidCreateScriptContext extension_frame 2%nat 1 0;
             OnWillReleaseScriptContext main_frame 1%nat 0;
             OnDidCreateScriptContext main_frame 3%nat 1 0])
      fresh_process
    = Returned tt p calls
    /\ count is_Initialize calls = 1%nat
    /\ count is_PrepareMessageLoop calls = 1%nat
    /\ node_integration_initialized_ p = true.
Proof.
  destruct (@bootstrap_exactly_once sample_natives fresh_process
              [OnDidClearWindowObject main_frame;
               OnDidCreateScriptContext sub_frame 5%nat 1 0]
              [OnDidCreateScriptContext extension_frame 2%nat 1 0;
               OnWillReleaseScriptContext main_frame 1%nat 0;
               OnDidCreateScriptContext main_frame 3%nat 1 0]
              (OnDidCreateScriptContext main_frame 1%nat 1 0)
              eq_refl eq_refl eq_refl)
    as (p1 & c1 & p2 & c2 & p3 & c3 & _ & _ & _ & Hrun
        & [Hi1 Hp1] & [Hi2 Hp2] & [Hi3 Hp3] & _ & _ & Hl3).
  exists p3, (c1 ++ (NodeBindings_Initialize
                       :: NodeBindings_PrepareMessageLoop :: c2) ++ c3).
  split; [exact Hrun|].
  rewrite !count_app.
  change (count is_Initialize
            (NodeBindings_Initialize :: NodeBindings_PrepareMessageLoop :: c2))
    with (S (count is_Initialize c2)).
  change (count is_PrepareMessageLoop
            (NodeBindings_Initialize :: NodeBindings_PrepareMessageLoop :: c2))
    with (S (count is_PrepareMessageLoop c2)).
  rewrite Hi1, Hi2, Hi3, Hp1, Hp2, Hp3. repeat split. exact Hl3.
Defined.

Lemma isolated_world_bootstrap_witness :
  exists calls,
    @dispatch sample_natives (OnDidCreateScriptContext main_frame 1%nat 1 0)
      isolated_process
    = Returned tt isolated_process calls
    /\ length calls = 7%nat
    /\ count is_CreateEnvironment calls = 0%nat.
Proof.
  eexists. split.
  - apply (proj1 (@isolated_world_bootstrap sample_natives isolated_process)
             main_frame 1%nat 1%Z 0%Z);
      reflexivity.
  - split; reflexivity.
Defined.

Lemma environment_created_iff_frame_allowed_witness :
  (exists p' before after,
      AtomRendererClient.DidCreateScriptContext 2%nat extension_frame fresh_process
      = Returned tt p'
          (before
             ++ [NodeBindings_CreateEnvironment 2%nat 0%nat;
                 AtomBindings_BindTo 0%nat;
                 AddRenderBindings 0%nat;
                 NodeBindings_LoadEnvironment (Some 0%nat)]
             ++ after)
      /\ environments p' !! 2%nat = Some 0%nat
      /\ count is_CreateEnvironment before = 0%nat
      /\ count is_CreateEnvironment after = 0%nat)
  /\ AtomRendererClient.DidCreateScriptContext 4%nat sub_frame fresh_process
     = Returned tt fresh_process [].
Proof.
  split.
  - apply (proj1 (environment_created_iff_frame_allowed
                    2%nat extension_frame fresh_process)).
    right. reflexivity.
  - apply (proj1 (proj2 (environment_created_iff_frame_allowed
                           4%nat sub_frame fresh_process))).
    intros [Hm | Hs]; discriminate.
Defined.

Lemma release_without_environment_witness :
  frame_allowed main_frame = true
  /\ environments (created 1%nat fresh_process) !! 7%nat = None
  /\ exists calls,
       AtomRendererClient.WillReleaseScriptContext 7%nat main_frame
         (created 1%nat fresh_process)
       = Returned tt (created 1%nat fresh_process) calls
       /\ count is_EmitEvent calls = 0%nat
       /\ calls = [FreeEnvironment None; AtomBindings_EnvironmentDestroyed None].
Proof.
  split; [reflexivity|]. split; [reflexivity|].
  apply (release_without_environment 7%nat main_frame (created 1%nat fresh_process));
    reflexivity.
Defined.

Lemma release_frees_unconditionally_witness :
  frame_allowed main_frame = true
  /\ exists p',
       AtomRendererClient.WillReleaseScriptContext 1%nat main_frame
         (created 1%nat fresh_process)
       = Returned tt p'
           [EmitEvent 0%nat "exit"; FreeEnvironment (Some 0%nat);
            AtomBindings_EnvironmentDestroyed (Some 0%nat)]
       /\ uv_env_ p' = None.
Proof.
  split; [reflexivity|].
  destruct (release_frees_unconditionally 1%nat main_frame
              (created 1%nat fresh_process) eq_refl)
    as (p' & Hrun & Hu & _).
  exists p'. split; [exact Hrun | exact Hu].
Defined.

Lemma binding_object_flags_witness :
  let binding :=
    @AtomRenderFrameObserver.binding_of sample_natives
      (flags [("opener-id", "7"); ("hidden-page", EmptyString)]) in
  binding !! "guestInstanceId" = None
  /\ binding !! "openerId" = Some (V8String "7")
  /\ binding !! "hiddenPage" = Some (V8Boolean true).
Proof.
  destruct (@binding_object_flags sample_natives
              (flags [("opener-id", "7"); ("hidden-page", EmptyString)]))
    as (Hg & Ho & Hh & _).
  - discriminate.
  - discriminate.
  - discriminate.
  - reflexivity.
  - reflexivity.
  - split; [exact Hg|]. split; [exact Ho | exact Hh].
Defined.

(** * Further properties of the bridge *)

(** ** Closed forms *)

Section StepLemmas.
Context `{Natives}.

Lemma dispatch_step cb p :
  dispatch cb p = Returned tt (step_state p cb) (step_calls p cb).
Proof.
  destruct cb as [frame|frame context g w|frame context w|frame|frame];
    cbn [dispatch step_state step_calls].
  - reflexivity.
  - rewrite observer_create. destruct (qualifying_creation p _); reflexivity.
  - rewrite observer_release. destruct (_ && _); reflexivity.
  - unfold AtomRendererClient.RunScriptsAtDocumentStart. apply document_hook.
  - unfold AtomRendererClient.RunScriptsAtDocumentEnd. apply document_hook.
Qed.

Lemma run_steps cbs p :
  run cbs p = Returned tt (run_state p cbs) (run_calls p cbs).
Proof.
  revert p. induction cbs as [|cb rest IH]; intros p; [reflexivity|].
  rewrite (run_cons _ _ _ _ _ (dispatch_step cb p)), IH. reflexivity.
Qed.

Lemma step_state_isolated_world cb p :
  isolated_world_ (step_state p cb) = isolated_world_ p.
Proof.
  destruct cb; cbn [step_state]; try reflexivity.
  - destruct (qualifying_creation p _); reflexivity.
  - destruct (_ && _); reflexivity.
Qed.

Lemma step_state_command_line cb p :
  command_line (step_state p cb) = command_line p.
Proof.
  destruct cb; cbn [step_state]; try reflexivity.
  - destruct (qualifying_creation p _); reflexivity.
  - destruct (_ && _); reflexivity.
Qed.

Lemma run_state_isolated_world cbs p :
  isolated_world_ (run_state p cbs) = isolated_world_ p.
Proof.
  revert p. induction cbs as [|cb rest IH]; intros p; [reflexivity|].
  cbn [run_state]. rewrite IH. apply step_state_isolated_world.
Qed.

Lemma run_state_command_line cbs p :
  command_line (run_state p cbs) = command_line p.
Proof.
  revert p. induction cbs as [|cb rest IH]; intros p; [reflexivity|].
  cbn [run_state]. rewrite IH. apply step_state_command_line.
Qed.

End StepLemmas.

Lemma bootstrap_condition_ext p p' cb :
  isolated_world_ p' = isolated_world_ p ->
  bootstrap_condition p' cb = bootstrap_condition p cb.
Proof. intros Hiw. destruct cb; cbn; rewrite ?Hiw; reflexivity. Qed.

Lemma passing_release_ext p p' cb :
  isolated_world_ p' = isolated_world_ p ->
  passing_release p' cb = passing_release p cb.
Proof.
  intros Hiw. destruct cb; cbn; try reflexivity.
  unfold AtomRenderFrameObserver.ShouldNotifyClient. rewrite Hiw. reflexivity.
Qed.

Lemma occurrences_cons f cb cbs :
  occurrences f (cb :: cbs)
  = ((if f cb then 1 else 0) + occurrences f cbs)%nat.
Proof.
  unfold occurrences. rewrite filter_cons.
  destruct (f cb); [rewrite decide_True by reflexivity
                   |rewrite decide_False by discriminate]; reflexivity.
Qed.

Lemma occurrences_ext f g cbs :
  (forall cb, f cb = g cb) -> occurrences f cbs = occurrences g cbs.
Proof.
  intros Hfg. induction cbs as [|cb rest IH]; [reflexivity|].
  rewrite !occurrences_cons, IH, Hfg. reflexivity.
Qed.

Lemma occurrences_never cbs : occurrences (fun _ => false) cbs = 0%nat.
Proof.
  induction cbs as [|cb rest IH]; [reflexivity|].
  rewrite occurrences_cons, IH. reflexivity.
Qed.

(** ** Counting over runs *)

Section Counting.
Context `{Natives}.

Lemma count_step_CreateEnvironment p cb :
  count is_CreateEnvironment (step_calls p cb)
  = if qualifying_creation p cb then 1%nat else 0%nat.
Proof.
  destruct cb as [frame|frame context g w|frame context w|frame|frame];
    cbn [step_calls qualifying_creation].
  - reflexivity.
  - destruct (_ && _).
    + unfold creation_calls.
      destruct (node_integration_initialized_ p), (uv_env_ p); reflexivity.
    + destruct (bootstrap_condition p _); reflexivity.
  - destruct (_ && _); [|reflexivity]. apply count_release; reflexivity.
  - destruct (uv_env_ p); reflexivity.
  - destruct (uv_env_ p); reflexivity.
Qed.

Lemma count_step_bootstrap p cb :
  count is_bootstrap_call (step_calls p cb)
  = if bootstrap_condition p cb then 7%nat else 0%nat.
Proof.
  destruct cb as [frame|frame context g w|frame context w|frame|frame];
    cbn [step_calls].
  - reflexivity.
  - destruct (qualifying_creation p _) eqn:Hq.
    + rewrite (qualifying_excludes_bootstrap _ _ Hq). unfold creation_calls.
      destruct (node_integration_initialized_ p), (uv_env_ p); reflexivity.
    + destruct (bootstrap_condition p _); reflexivity.
  - destruct (_ && _); [|reflexivity]. apply count_release; reflexivity.
  - destruct (uv_env_ p); reflexivity.
  - destruct (uv_env_ p); reflexivity.
Qed.

Lemma count_step_release (f : Call -> bool) p cb :
  (f = is_FreeEnvironment \/ f = is_EnvironmentDestroyed) ->
  count f (step_calls p cb) = if passing_release p cb then 1%nat else 0%nat.
Proof.
  intros Hf.
  destruct cb as [frame|frame context g w|frame context w|frame|frame];
    cbn [step_calls passing_release].
  - destruct Hf as [-> | ->]; reflexivity.
  - destruct (qualifying_creation p _).
    + unfold creation_calls.
      destruct (node_integration_initialized_ p), (uv_env_ p);
        destruct Hf as [-> | ->]; reflexivity.
    + destruct (bootstrap_condition p _); destruct Hf as [-> | ->]; reflexivity.
  - destruct (_ && _); [|reflexivity]. unfold release_calls.
    destruct (environments p !! context); destruct Hf as [-> | ->]; reflexivity.
  - destruct (uv_env_ p); destruct Hf as [-> | ->]; reflexivity.
  - destruct (uv_env_ p); destruct Hf as [-> | ->]; reflexivity.
Qed.

Lemma count_step_exit p cb :
  count is_exit (step_calls p cb)
  = count is_live_FreeEnvironment (step_calls p cb).
Proof.
  destruct cb as [frame|frame context g w|frame context w|frame|frame];
    cbn [step_calls].
  - reflexivity.
  - destruct (qualifying_creation p _).
    + unfold creation_calls.
      destruct (node_integration_initialized_ p), (uv_env_ p); reflexivity.
    + destruct (bootstrap_condition p _); reflexivity.
  - destruct (_ && _); [|reflexivity]. unfold release_calls.
    destruct (environments p !! context); reflexivity.
  - destruct (uv_env_ p); reflexivity.
  - destruct (uv_env_ p); reflexivity.
Qed.

(** A count that each callback raises by [k] or leaves, as [g] tells, adds
    up over a run. *)
Lemma count_run_calls
    (f : Call -> bool) (g : RendererProcess -> HostCallback -> bool) (k : nat) :
  (forall p cb, count f (step_calls p cb) = if g p cb then k else 0%nat) ->
  (forall p p' cb, isolated_world_ p' = isolated_world_ p -> g p' cb = g p cb) ->
  forall cbs p, count f (run_calls p cbs) = (k * occurrences (g p) cbs)%nat.
Proof.
  intros Hstep Hext cbs. induction cbs as [|cb rest IH]; intros p.
  - cbn. lia.
  - cbn [run_calls]. rewrite count_app, Hstep, IH, occurrences_cons.
    rewrite (occurrences_ext (g (step_state p cb)) (g p))
      by (intros cb'; apply Hext, step_state_isolated_world).
    destruct (g p cb); lia.
Qed.

Lemma run_state_next_environment cbs p :
  next_environment (run_state p cbs)
  = (next_environment p + occurrences (qualifying_creation p) cbs)%nat.
Proof.
  revert p. induction cbs as [|cb rest IH]; intros p.
  - cbn. lia.
  - cbn [run_state]. rewrite IH, occurrences_cons.
    rewrite (occurrences_ext (qualifying_creation (step_state p cb))
               (qualifying_creation p))
      by (intros cb'; apply qualifying_creation_ext, step_state_isolated_world).
    destruct cb as [frame|frame context g w|frame context w|frame|frame];
      cbn [step_state qualifying_creation]; try lia.
    + destruct (_ && _); cbn; lia.
    + destruct (_ && _); cbn; lia.
Qed.

(** X1. Whatever the process and the callbacks, the run returns: the bridge
    never follows a null environment pointer. Isolated mode and the command
    line, read at construction, are what they were. *)
Theorem callbacks_never_fault (p : RendererProcess) (cbs : list HostCallback) :
  exists p' calls,
    run cbs p = Returned tt p' calls
    /\ isolated_world_ p' = isolated_world_ p
    /\ command_line p' = command_line p.
Proof.
  exists (run_state p cbs), (run_calls p cbs).
  split; [apply run_steps|].
  split; [apply run_state_isolated_world | apply run_state_command_line].
Qed.

(** X2. A release is let through by the same test as a creation: for a
    frame and world whose creation would not qualify, the release returns
    with the process unchanged and no call made, and only then; the
    creation itself then leaves the process unchanged and creates and
    initialises nothing. *)
Theorem guard_rejected_events_are_silent
    (p : RendererProcess) (frame : RenderFrame) (context : Context)
    (extension_group world_id : Z) :
  let creation :=
    OnDidCreateScriptContext frame context extension_group world_id in
  (dispatch (OnWillReleaseScriptContext frame context world_id) p
   = Returned tt p []
   <-> qualifying_creation p creation = false)
  /\ (qualifying_creation p creation = false ->
      exists calls,
        dispatch creation p = Returned tt p calls
        /\ count is_CreateEnvironment calls = 0%nat
        /\ count is_Initialize calls = 0%nat
        /\ (bootstrap_condition p creation = false -> calls = [])).
Proof.
  cbn zeta. split.
  - rewrite dispatch_step. cbn [step_state step_calls qualifying_creation].
    destruct (_ && _); split; try reflexivity; try discriminate.
    unfold release_calls. intros Heq. injection Heq as _ Hcalls.
    destruct (environments p !! context); discriminate.
  - intros Hq. rewrite dispatch_step. cbn [step_state step_calls]. rewrite Hq.
    eexists. split; [reflexivity|].
    destruct (bootstrap_condition p _); repeat split; try reflexivity.
    discriminate.
Qed.

(** X3. Over any run, one environment is created for each qualifying
    creation and none otherwise: the number of [CreateEnvironment] calls
    and the advance of the handle counter both equal the number of
    qualifying creations, and the latch is set at the end exactly when it
    was set before or a qualifying creation occurred. *)
Theorem one_environment_per_qualifying_creation
    (p : RendererProcess) (cbs : list HostCallback) :
  exists p' calls,
    run cbs p = Returned tt p' calls
    /\ count is_CreateEnvironment calls
       = occurrences (qualifying_creation p) cbs
    /\ next_environment p'
       = (next_environment p + occurrences (qualifying_creation p) cbs)%nat
    /\ node_integration_initialized_ p'
       = node_integration_initialized_ p
         || existsb (qualifying_creation p) cbs.
Proof.
  exists (run_state p cbs), (run_calls p cbs).
  split; [apply run_steps|]. split; [|split].
  - rewrite (count_run_calls is_CreateEnvironment qualifying_creation 1).
    + lia.
    + apply count_step_CreateEnvironment.
    + intros q q' cb. apply qualifying_creation_ext.
  - apply run_state_next_environment.
  - revert p. induction cbs as [|cb rest IH]; intros p.
    + cbn. rewrite orb_false_r. reflexivity.
    + cbn [run_state existsb]. rewrite IH.
      rewrite (existsb_qualifying_ext p (step_state p cb))
        by apply step_state_isolated_world.
      destruct cb as [frame|frame context g w|frame context w|frame|frame];
        cbn [step_state qualifying_creation]; rewrite ?orb_false_l;
        try reflexivity.
      * destruct (_ && _); cbn; [|reflexivity].
        rewrite orb_true_r. reflexivity.
      * destruct (_ && _); reflexivity.
Qed.

(** X4. Over any run, the isolated-world bootstrap makes its seven calls
    once for each creation of the main world of a main frame in isolated
    mode, and no other callback makes any of them; outside isolated mode
    none is ever made. *)
Theorem bootstrap_calls_per_main_world_creation
    (p : RendererProcess) (cbs : list HostCallback) :
  exists p' calls,
    run cbs p = Returned tt p' calls
    /\ count is_bootstrap_call calls
       = (7 * occurrences (bootstrap_condition p) cbs)%nat
    /\ (isolated_world_ p = false -> count is_bootstrap_call calls = 0%nat).
Proof.
  exists (run_state p cbs), (run_calls p cbs).
  split; [apply run_steps|].
  assert (Hcount : count is_bootstrap_call (run_calls p cbs)
                   = (7 * occurrences (bootstrap_condition p) cbs)%nat).
  { apply (count_run_calls is_bootstrap_call bootstrap_condition 7).
    - apply count_step_bootstrap.
    - intros q q' cb. apply bootstrap_condition_ext. }
  split; [exact Hcount|].
  intros Hiw. rewrite Hcount.
  rewrite (occurrences_ext _ (fun _ => false)).
  - rewrite occurrences_never. lia.
  - intros cb. destruct cb; cbn; rewrite ?Hiw; reflexivity.
Qed.

(** X5. Over any run, [FreeEnvironment] and [EnvironmentDestroyed] are each
    called once for every release that passes both guards and by no other
    callback, and the "exit" events are as many as the calls of
    [FreeEnvironment] on a non-null environment. *)
Theorem teardown_calls_per_release
    (p : RendererProcess) (cbs : list HostCallback) :
  exists p' calls,
    run cbs p = Returned tt p' calls
    /\ count is_FreeEnvironment calls = occurrences (passing_release p) cbs
    /\ count is_EnvironmentDestroyed calls = occurrences (passing_release p) cbs
    /\ count is_exit calls = count is_live_FreeEnvironment calls.
Proof.
  exists (run_state p cbs), (run_calls p cbs).
  split; [apply run_steps|]. split; [|split].
  - rewrite (count_run_calls is_FreeEnvironment passing_release 1).
    + lia.
    + intros q cb. apply count_step_release. left. reflexivity.
    + intros q q' cb. apply passing_release_ext.
  - rewrite (count_run_calls is_EnvironmentDestroyed passing_release 1).
    + lia.
    + intros q cb. apply count_step_release. right. reflexivity.
    + intros q q' cb. apply passing_release_ext.
  - revert p. induction cbs as [|cb rest IH]; intros p; [reflexivity|].
    cbn [run_calls]. rewrite !count_app, count_step_exit, IH. reflexivity.
Qed.

End Counting.

(** ** Monitors *)

Section MonitorFacts.
Context {Q : Type} (ok : Q -> Call -> bool) (next : Q -> Call -> Q).

Lemma final_app q a b :
  final next q (a ++ b) = final next (final next q a) b.
Proof. unfold final. apply fold_left_app. Qed.

Lemma accepts_app q a b :
  accepts ok next q (a ++ b)
  = accepts ok next q a && accepts ok next (final next q a) b.
Proof.
  revert q. induction a as [|c a IH]; intros q; [reflexivity|].
  cbn [app accepts]. rewrite IH, andb_assoc. reflexivity.
Qed.

(** In an accepted log each call is allowed after the calls before it. *)
Lemma accepts_at q pre c post :
  accepts ok next q (pre ++ c :: post) = true ->
  ok (final next q pre) c = true.
Proof.
  rewrite accepts_app. cbn [accepts].
  intros [_ [Hc _]%andb_true_iff]%andb_true_iff. exact Hc.
Qed.

End MonitorFacts.

Section RunMonitor.
Context `{Natives}.
Context {Q : Type} (ok : Q -> Call -> bool) (next : Q -> Call -> Q).
Context (Inv : RendererProcess -> Q -> Prop).

(** An invariant that relates the process to the monitor and that every
    callback keeps, with an accepted log, holds along every run. *)
Lemma run_monitor :
  (forall p q cb,
      Inv p q ->
      accepts ok next q (step_calls p cb) = true
      /\ Inv (step_state p cb) (final next q (step_calls p cb))) ->
  forall cbs p q,
    Inv p q ->
    accepts ok next q (run_calls p cbs) = true
    /\ Inv (run_state p cbs) (final next q (run_calls p cbs)).
Proof.
  intros Hstep cbs. induction cbs as [|cb rest IH]; intros p q Hinv.
  - split; [reflexivity | exact Hinv].
  - cbn [run_calls run_state]. rewrite accepts_app, final_app.
    destruct (Hstep p q cb Hinv) as [Hacc Hinv1].
    destruct (IH _ _ Hinv1) as [Hacc2 Hinv2].
    rewrite Hacc, Hacc2. split; [reflexivity | exact Hinv2].
Qed.

End RunMonitor.

(** ** Freed environments *)




Section Live.
Context `{Natives}.



End Live.

(** ** The order of the bootstrap *)

Lemma final_order (q : bool * bool) (calls : list Call) :
  final order_next q calls
  = (q.1 || existsb is_Initialize calls,
     q.2 || existsb is_PrepareMessageLoop calls).
Proof.
  revert q. induction calls as [|c rest IH]; intros [i j].
  - cbn. rewrite !orb_false_r. reflexivity.
  - change (final order_next (i, j) (c :: rest))
      with (final order_next (order_next (i, j) c) rest).
    rewrite IH. destruct c; cbn; rewrite ?orb_true_r, ?orb_false_r; reflexivity.
Qed.

Lemma existsb_is_Initialize calls :
  existsb is_Initialize calls = true -> NodeBindings_Initialize ∈ calls.
Proof.
  intros (c & Hin & Hc)%existsb_exists. destruct c; try discriminate.
  apply list_elem_of_In, Hin.
Qed.

Lemma existsb_is_PrepareMessageLoop calls :
  existsb is_PrepareMessageLoop calls = true ->
  NodeBindings_PrepareMessageLoop ∈ calls.
Proof.
  intros (c & Hin & Hc)%existsb_exists. destruct c; try discriminate.
  apply list_elem_of_In, Hin.
Qed.

Section Order.
Context `{Natives}.

Lemma order_step p q cb :
  order_invariant p q ->
  accepts order_ok order_next q (step_calls p cb) = true
  /\ order_invariant (step_state p cb)
       (final order_next q (step_calls p cb)).
Proof.
  unfold order_invariant. intros Hinv. destruct q as [i j].
  destruct cb as [frame|frame context g w|frame context w|frame|frame];
    cbn [step_calls step_state].
  - split; [reflexivity | exact Hinv].
  - destruct (qualifying_creation p _).
    + unfold creation_calls.
      destruct (node_integration_initialized_ p) eqn:Hl.
      * specialize (Hinv eq_refl). injection Hinv as -> ->.
        destruct (uv_env_ p); split; reflexivity.
      * destruct (uv_env_ p); split; reflexivity.
    + destruct (bootstrap_condition p _); (split; [reflexivity | exact Hinv]).
  - destruct (_ && _); [|split; [reflexivity | exact Hinv]].
    unfold release_calls.
    destruct (environments p !! context); (split; [reflexivity | exact Hinv]).
  - destruct (uv_env_ p); (split; [reflexivity | exact Hinv]).
  - destruct (uv_env_ p); (split; [reflexivity | exact Hinv]).
Qed.

(** X7. From a process whose latch is not set, in every run: each call of
    [CreateEnvironment] comes after a call of [Initialize] and a call of
    [PrepareMessageLoop], and each call of [PrepareMessageLoop] after a
    call of [Initialize]. *)
Theorem runtime_initialised_before_environments
    (p : RendererProcess) (cbs : list HostCallback) :
  node_integration_initialized_ p = false ->
  exists p' calls,
    run cbs p = Returned tt p' calls
    /\ (forall pre context e post,
           calls = pre ++ NodeBindings_CreateEnvironment context e :: post ->
           NodeBindings_Initialize ∈ pre
           /\ NodeBindings_PrepareMessageLoop ∈ pre)
    /\ (forall pre post,
           calls = pre ++ NodeBindings_PrepareMessageLoop :: post ->
           NodeBindings_Initialize ∈ pre).
Proof.
  intros Hl.
  assert (Hinv : order_invariant p (false, false))
    by (unfold order_invariant; congruence).
  destruct (run_monitor order_ok order_next order_invariant order_step
              cbs p (false, false) Hinv) as [Hacc _].
  exists (run_state p cbs), (run_calls p cbs).
  split; [apply run_steps|]. split.
  - intros pre context e post Hsplit. rewrite Hsplit in Hacc.
    apply accepts_at in Hacc. rewrite final_order in Hacc. cbn in Hacc.
    apply andb_true_iff in Hacc as [Hi Hp].
    split; [apply existsb_is_Initialize, Hi
           |apply existsb_is_PrepareMessageLoop, Hp].
  - intros pre post Hsplit. rewrite Hsplit in Hacc.
    apply accepts_at in Hacc. rewrite final_order in Hacc. cbn in Hacc.
    apply existsb_is_Initialize, Hacc.
Qed.

End Order.

(** ** The first environment *)

Section FirstEnvironment.
Context `{Natives}.

Lemma default_kept_without_release cbs p e :
  uv_env_ p = Some e ->
  existsb is_release cbs = false ->
  uv_env_ (run_state p cbs) = Some e
  /\ count is_RunMessageLoop (run_calls p cbs) = 0%nat.
Proof.
  revert p. induction cbs as [|cb rest IH]; intros p Hu Hnone.
  - split; [exact Hu | reflexivity].
  - cbn [existsb] in Hnone. apply orb_false_iff in Hnone as [Hcb Hrest].
    cbn [run_state run_calls]. rewrite count_app.
    destruct cb as [frame|frame context g w|frame context w|frame|frame];
      try discriminate; cbn [step_state step_calls].
    + destruct (IH p Hu Hrest) as [-> ->]. split; reflexivity.
    + destruct (qualifying_creation p _).
      * destruct (IH (created context p)) as [-> ->];
          [cbn; rewrite Hu; reflexivity | exact Hrest |].
        rewrite count_creation_RunMessageLoop, Hu. split; reflexivity.
      * destruct (IH p Hu Hrest) as [-> ->].
        destruct (bootstrap_condition p _); split; reflexivity.
    + destruct (IH p Hu Hrest) as [-> ->]. rewrite Hu. split; reflexivity.
    + destruct (IH p Hu Hrest) as [-> ->]. rewrite Hu. split; reflexivity.
Qed.

(** X8. From a process without default environment, over callbacks among
    which there is no release: if a qualifying creation occurs, the default
    at the end is the first environment created and the message loop was
    run exactly once; if none occurs, there is no default and the loop was
    never run. *)
Theorem first_environment_becomes_default
    (p : RendererProcess) (cbs : list HostCallback) :
  uv_env_ p = None ->
  existsb is_release cbs = false ->
  exists p' calls,
    run cbs p = Returned tt p' calls
    /\ uv_env_ p'
       = (if existsb (qualifying_creation p) cbs
          then Some (next_environment p) else None)
    /\ count is_RunMessageLoop calls
       = (if existsb (qualifying_creation p) cbs then 1%nat else 0%nat).
Proof.
  intros Hu Hnone.
  exists (run_state p cbs), (run_calls p cbs).
  split; [apply run_steps|].
  revert p Hu. induction cbs as [|cb rest IH]; intros p Hu.
  - split; [exact Hu | reflexivity].
  - cbn [existsb] in Hnone. apply orb_false_iff in Hnone as [Hcb Hrest].
    specialize (IH Hrest).
    cbn [run_state run_calls existsb]. rewrite count_app.
    destruct cb as [frame|frame context g w|frame context w|frame|frame];
      try discriminate; cbn [step_state step_calls].
    + destruct (IH p Hu) as [-> ->]. split; reflexivity.
    + destruct (qualifying_creation p _) eqn:Hq.
      * destruct (default_kept_without_release rest (created context p)
                    (next_environment p)) as [-> ->];
          [cbn; rewrite Hu; reflexivity | exact Hrest |].
        rewrite count_creation_RunMessageLoop, Hu. split; reflexivity.
      * destruct (IH p Hu) as [-> ->].
        destruct (bootstrap_condition p _); split; reflexivity.
    + destruct (IH p Hu) as [-> ->]. rewrite Hu. split; reflexivity.
    + destruct (IH p Hu) as [-> ->]. rewrite Hu. split; reflexivity.
Qed.

End FirstEnvironment.

(** ** Creation followed by release *)

Lemma handles_fresh_new (cl : CommandLine) :
  handles_fresh (AtomRendererClient.new cl).
Proof.
  split; cbn; [intros context e He|intros e He]; [|discriminate].
  rewrite lookup_empty in He. discriminate.
Qed.

Lemma filter_fresh_insert
    (m : gmap Context Environment) (context : Context) (e : Environment) :
  (forall k v, m !! k = Some v -> v <> e) ->
  filter (fun kv : Context * Environment => kv.2 <> e) (<[context := e]> m)
  = delete context m.
Proof.
  intros Hfresh. apply map_eq. intros k.
  destruct (decide (k = context)) as [->|Hne].
  - rewrite lookup_delete_eq. apply map_lookup_filter_None. right.
    intros v. rewrite lookup_insert_eq. intros [= <-]. cbn. tauto.
  - rewrite lookup_delete_ne by congruence.
    destruct (m !! k) as [v|] eqn:Hk.
    + apply map_lookup_filter_Some. rewrite lookup_insert_ne by congruence.
      split; [exact Hk | cbn; eapply Hfresh, Hk].
    + apply map_lookup_filter_None. left.
      rewrite lookup_insert_ne by congruence. exact Hk.
Qed.

Section RoundTrip.
Context `{Natives}.

(** X9. From a process whose handles are fresh, a qualifying creation
    followed by the release of the same context for the same frame and
    world emits "exit" into the environment just created, frees it and
    reports it destroyed; afterwards no environment is bound to the
    context, every other binding and the default are as before the
    creation, and only the latch and the handle counter record that
    anything happened. *)
Theorem create_then_release
    (p : RendererProcess) (frame : RenderFrame) (context : Context)
    (extension_group world_id : Z) :
  handles_fresh p ->
  qualifying_creation p
    (OnDidCreateScriptContext frame context extension_group world_id) = true ->
  exists p' calls,
    run [OnDidCreateScriptContext frame context extension_group world_id;
         OnWillReleaseScriptContext frame context world_id] p
    = Returned tt p'
        (calls
           ++ [EmitEvent (next_environment p) "exit";
               FreeEnvironment (Some (next_environment p));
               AtomBindings_EnvironmentDestroyed (Some (next_environment p))])
    /\ environments p' = delete context (environments p)
    /\ uv_env_ p' = uv_env_ p
    /\ node_integration_initialized_ p' = true
    /\ next_environment p' = S (next_environment p)
    /\ count is_EmitEvent calls = 0%nat.
Proof.
  intros [Hbound Hdef] Hq. rewrite run_steps.
  cbn [run_state run_calls step_state step_calls]. rewrite Hq.
  cbn [qualifying_creation] in Hq.
  replace (AtomRenderFrameObserver.ShouldNotifyClient (created context p)
             frame world_id)
    with (AtomRenderFrameObserver.ShouldNotifyClient p frame world_id)
    by reflexivity.
  rewrite Hq. unfold release_calls, released.
  cbn [created environments uv_env_ command_line isolated_world_
         node_integration_initialized_ next_environment].
  rewrite lookup_insert_eq, app_nil_r.
  exists {| command_line := command_line p;
            isolated_world_ := isolated_world_ p;
            node_integration_initialized_ := true;
            uv_env_ := uv_env_ p;
            environments := delete context (environments p);
            next_environment := S (next_environment p) |},
         (creation_calls context p).
  split; [|repeat split].
  - f_equal. f_equal.
    + destruct (uv_env_ p) as [e0|] eqn:Hu.
      * rewrite bool_decide_eq_false_2; [reflexivity|].
        intros [= Heq]. specialize (Hdef e0 eq_refl). lia.
      * rewrite bool_decide_eq_true_2; reflexivity.
    + apply filter_fresh_insert. intros k v Hk. apply Hbound in Hk. lia.
  - unfold creation_calls.
    destruct (node_integration_initialized_ p), (uv_env_ p); reflexivity.
Qed.

End RoundTrip.

(** ** Worker contexts *)

(** X10. The two worker hooks forward to the worker observer exactly when
    the node-integration-in-worker flag is on the command line, and leave
    the process unchanged; as no callback changes the command line, the
    destruction of a worker context is forwarded exactly when its
    initialisation was, whatever callbacks ran in between. *)
Theorem worker_hooks_paired `{Natives}
    (p : RendererProcess) (cbs : list HostCallback) (context : Context) :
  let enabled :=
    HasSwitch (command_line p) switches.kNodeIntegrationInWorker in
  exists p' calls,
    AtomRendererClient.DidInitializeWorkerContextOnWorkerThread context p
    = Returned tt p (if enabled then [Worker_ContextCreated context] else [])
    /\ run cbs p = Returned tt p' calls
    /\ AtomRendererClient.WillDestroyWorkerContextOnWorkerThread context p'
       = Returned tt p'
           (if enabled then [Worker_ContextWillDestroy context] else []).
Proof.
  cbn zeta. exists (run_state p cbs), (run_calls p cbs).
  split; [|split].
  - unfold AtomRendererClient.DidInitializeWorkerContextOnWorkerThread.
    unfold bind. cbn [get].
    destruct (HasSwitch (command_line p) _); reflexivity.
  - apply run_steps.
  - unfold AtomRendererClient.WillDestroyWorkerContextOnWorkerThread.
    unfold bind. cbn [get]. rewrite run_state_command_line.
    destruct (HasSwitch (command_line p) _); reflexivity.
Qed.

(** ** The binding object *)

(** X11. The flags touch three keys only: under every other key the
    binding object holds what [api::Initialize] put there, or nothing if it
    put nothing there. *)
Theorem binding_keeps_api_properties `{Natives} (cl : CommandLine) (key : string) :
  key <> options_kGuestInstanceID ->
  key <> options_kOpenerID ->
  key <> "hiddenPage" ->
  AtomRenderFrameObserver.binding_of cl !! key = api_Initialize ∅ !! key.
Proof.
  intros Hg Ho Hh. unfold AtomRenderFrameObserver.binding_of, Dictionary_Set.
  rewrite lookup_insert_ne by congruence.
  destruct (HasSwitch cl switches.kOpenerID);
    rewrite ?lookup_insert_ne by congruence;
    destruct (HasSwitch cl switches.kGuestInstanceID);
    rewrite ?lookup_insert_ne by congruence; reflexivity.
Qed.

(** ** The further properties on sample inputs *)


Lemma runtime_initialised_before_environments_witness :
  node_integration_initialized_ fresh_process = false
  /\ exists p' calls,
       @run sample_natives sample_callbacks fresh_process = Returned tt p' calls
       /\ forall pre context e post,
            calls = pre ++ NodeBindings_CreateEnvironment context e :: post ->
            NodeBindings_Initialize ∈ pre
            /\ NodeBindings_PrepareMessageLoop ∈ pre.
Proof.
  split; [reflexivity|].
  destruct (@runtime_initialised_before_environments sample_natives
              fresh_process sample_callbacks eq_refl)
    as (p' & calls & Hrun & Horder & _).
  exists p', calls. split; [exact Hrun | exact Horder].
Defined.

Lemma first_environment_becomes_default_witness :
  exists p' calls,
    @run sample_natives
      [ OnDidClearWindowObject main_frame;
        OnDidCreateScriptContext sub_frame 5%nat 1 0;
        OnDidCreateScriptContext main_frame 1%nat 1 0;
        OnRunScriptsAtDocumentStart main_frame;
        OnDidCreateScriptContext extension_frame 2%nat 1 0 ]
      fresh_process
    = Returned tt p' calls
    /\ uv_env_ p' = Some 0%nat
    /\ count is_RunMessageLoop calls = 1%nat.
Proof.
  apply (@first_environment_becomes_default sample_natives fresh_process
           [ OnDidClearWindowObject main_frame;
             OnDidCreateScriptContext sub_frame 5%nat 1 0;
             OnDidCreateScriptContext main_frame 1%nat 1 0;
             OnRunScriptsAtDocumentStart main_frame;
             OnDidCreateScriptContext extension_frame 2%nat 1 0 ]);
    reflexivity.
Defined.

Lemma create_then_release_witness :
  exists p' calls,
    @run sample_natives
      [ OnDidCreateScriptContext main_frame 1%nat 1 0;
        OnWillReleaseScriptContext main_frame 1%nat 0 ]
      fresh_process
    = Returned tt p'
        (calls
           ++ [EmitEvent 0%nat "exit"; FreeEnvironment (Some 0%nat);
               AtomBindings_EnvironmentDestroyed (Some 0%nat)])
    /\ environments p' = delete 1%nat (environments fresh_process)
    /\ uv_env_ p' = None
    /\ node_integration_initialized_ p' = true
    /\ next_environment p' = 1%nat
    /\ count is_EmitEvent calls = 0%nat.
Proof.
  apply (@create_then_release sample_natives fresh_process main_frame 1%nat 1 0).
  - apply handles_fresh_new.
  - reflexivity.
Defined.

Lemma binding_keeps_api_properties_witness :
  (@AtomRenderFrameObserver.binding_of sample_natives
     (flags [("opener-id", "7"); ("guest-instance-id", "3")])) !! "sendSync"
  = Some (V8Function "sendSync").
Proof.
  rewrite (@binding_keeps_api_properties sample_natives
             (flags [("opener-id", "7"); ("guest-instance-id", "3")])
             "sendSync");
    [reflexivity | discriminate | discriminate | discriminate].
Defined.
